(** * gulp-cache: the task-result cache proxy

    A shallow embedding of [lib/TaskProxy.js] and of the plugin entry
    file (option defaults, [fileToObj], [restoreFileFromObj], the two
    transforms), with the properties of the specification stated and
    settled against it.

    Conventions of the embedding.
    - JavaScript values are the inductive [jsval]; numbers are integers
      (the program only handles byte values and opaque metadata),
      objects are association lists in insertion order, and members
      inherited from a prototype are not modelled, so an accessor of a
      vinyl file ([path], [contents]) is read as a plain property.
    - A promise chain is a computation in the monad [M]: it threads the
      [world] (cache store, the wrapped stream's listener table, the
      proxy's file array, the trace of calls made on collaborators) and
      ends [Resolved], [Rejected] or [Pending] (never settled).
    - Text handed to the store is [text]: either a string stored
      verbatim or the JSON document that [JSON.stringify] wrote. *)

From Stdlib Require Import ZArith Ascii String.
From Stdlib.Strings Require Import Byte.
From stdpp Require Import base strings gmap list pretty.

Set Warnings "-register-all".

Open Scope Z_scope.

(** ** JavaScript values *)

Module JS.

Inductive jsval :=
| JUndefined
| JNull
| JBool (b : bool)
| JNum (n : Z)
| JStr (s : string)
| JBuffer (bytes : list byte)
| JDate (iso : string)
| JArr (items : list jsval)
| JObj (props : list (string * jsval)).

Abbreviation props := (list (string * jsval)).

(** [!v], negated: the values JavaScript treats as true. *)
Definition truthy (v : jsval) : bool :=
  match v with
  | JUndefined | JNull => false
  | JBool b => b
  | JNum n => negb (n =? 0)
  | JStr s => negb (String.eqb s "")
  | JBuffer _ | JDate _ | JArr _ | JObj _ => true
  end.

(** [a === b].  Primitives compare by value.  Two object references are
    equal only when they are the same allocation; the comparisons of the
    program put a value read back from the store, or produced by the
    task, against a path of the live input, so they are never the same
    object. *)
Definition strictEq (a b : jsval) : bool :=
  match a, b with
  | JUndefined, JUndefined => true
  | JNull, JNull => true
  | JBool x, JBool y => Bool.eqb x y
  | JNum x, JNum y => x =? y
  | JStr x, JStr y => String.eqb x y
  | _, _ => false
  end.

Fixpoint lookup (k : string) (ps : props) : option jsval :=
  match ps with
  | [] => None
  | (k', v) :: rest => if String.eqb k k' then Some v else lookup k rest
  end.

Definition keys (ps : props) : list string := map fst ps.

Definition byteNum (b : byte) : jsval := JNum (Z.of_N (Byte.to_N b)).

(** Own enumerable properties, as [for..in] with [hasOwnProperty] sees
    them: the entries of an object, the indices of an array or buffer. *)
Definition indexed (l : list jsval) : props :=
  imap (fun i v => (pretty i, v)) l.

Definition ownProps (v : jsval) : props :=
  match v with
  | JObj ps => ps
  | JArr l => indexed l
  | JBuffer bs => indexed (map byteNum bs)
  | _ => []
  end.

(** [v[k]] for a value that is neither [null] nor [undefined]. *)
Definition getProp (v : jsval) (k : string) : jsval :=
  default JUndefined (lookup k (ownProps v)).

(** [o[k] = v] on an object: overwrite in place or append. *)
Fixpoint setProp (ps : props) (k : string) (v : jsval) : props :=
  match ps with
  | [] => [(k, v)]
  | (k', v') :: rest =>
      if String.eqb k k' then (k, v) :: rest else (k', v') :: setProp rest k v
  end.

(** [typeof v === 'object'], [null] included, as in JavaScript. *)
Definition isExtendable (v : jsval) : bool :=
  match v with
  | JBuffer _ | JDate _ | JArr _ | JObj _ => true
  | _ => false
  end.

(** [objectAssign(target, source)] (object-assign): copy every own
    enumerable property of the source, [undefined] values included. *)
Definition objectAssign (target : props) (source : jsval) : props :=
  fold_left (fun t kv => setProp t kv.1 kv.2) (ownProps source) target.

(** [objectOmit(obj, keys)] (object.omit): [{}] for a non-object, the
    object itself when no key is given, else a copy without the keys. *)
Definition objectOmit (obj : jsval) (ks : list string) : jsval :=
  if negb (isExtendable obj) then JObj []
  else match ks with
       | [] => obj
       | _ => JObj (filter (fun kv => kv.1 ∉ ks) (ownProps obj))
       end.

(** [objectPick(obj, keys)] (object.pick): the listed keys that are in
    the object, in the order of the list. *)
Definition objectPick (obj : jsval) (ks : list string) : jsval :=
  if negb (isExtendable obj) then JObj []
  else JObj (flat_map (fun k => match lookup k (ownProps obj) with
                                | Some v => [(k, v)]
                                | None => []
                                end) ks).

(** ** JSON *)

(** The value [JSON.parse(JSON.stringify(v))]: a buffer is written
    through its [toJSON] as [{type: 'Buffer', data: [..]}], a date as its
    ISO text, an [undefined] member is dropped from an object and
    becomes [null] in an array.  [JUndefined] as a result says that
    [JSON.stringify] returned [undefined]. *)
Fixpoint toJSON (v : jsval) : jsval :=
  match v with
  | JUndefined => JUndefined
  | JNull => JNull
  | JBool b => JBool b
  | JNum n => JNum n
  | JStr s => JStr s
  | JBuffer bs => JObj [("type", JStr "Buffer"); ("data", JArr (map byteNum bs))]
  | JDate iso => JStr iso
  | JArr l =>
      JArr (map (fun x => match toJSON x with JUndefined => JNull | y => y end) l)
  | JObj ps =>
      JObj ((fix members (ps : props) : props :=
               match ps with
               | [] => []
               | (k, x) :: rest =>
                   match toJSON x with
                   | JUndefined => members rest
                   | y => (k, y) :: members rest
                   end
               end) ps)
  end.

(** The members of the JSON form of an object. *)
Fixpoint jsonMembers (ps : props) : props :=
  match ps with
  | [] => []
  | (k, x) :: rest =>
      match toJSON x with
      | JUndefined => jsonMembers rest
      | y => (k, y) :: jsonMembers rest
      end
  end.

(** Values that JSON carries unchanged. *)
Fixpoint jsonPlain (v : jsval) : bool :=
  match v with
  | JNull | JBool _ | JNum _ | JStr _ => true
  | JUndefined | JBuffer _ | JDate _ => false
  | JArr l => forallb jsonPlain l
  | JObj ps => forallb (fun kv => jsonPlain kv.2) ps
  end.

End JS.
Export JS.

(** ** Byte encodings: base64 text and the MD5 digest

    [Buffer#toString('base64')], [new Buffer(text, 'base64')] and
    [crypto.createHash('md5').update(key).digest('hex')] are services of
    the platform; they are written out here so that keys and stored
    contents can be computed. *)

Module Encoding.

Definition byteZ (b : byte) : Z := Z.of_N (Byte.to_N b).

Definition zByte (n : Z) : byte :=
  default x00 (Byte.of_N (Z.to_N (n mod 256))).

Definition b64alphabet : list ascii :=
  String.list_ascii_of_string
    "ABCDEFGHIJKLMNOPQRSTUVWXYZabcdefghijklmnopqrstuvwxyz0123456789+/".

Definition b64char (n : Z) : ascii :=
  nth (Z.to_nat (n mod 64)) b64alphabet "A"%char.

(** Three bytes make four characters; a tail of one or two bytes is
    padded with [=]. *)
Fixpoint base64 (bs : list byte) : string :=
  match bs with
  | [] => ""
  | [a] =>
      let n := byteZ a * 65536 in
      String (b64char (n / 262144)) (String (b64char (n / 4096)) "==")
  | [a; b] =>
      let n := byteZ a * 65536 + byteZ b * 256 in
      String (b64char (n / 262144)) (String (b64char (n / 4096))
        (String (b64char (n / 64)) "="))
  | a :: b :: c :: rest =>
      let n := byteZ a * 65536 + byteZ b * 256 + byteZ c in
      String (b64char (n / 262144)) (String (b64char (n / 4096))
        (String (b64char (n / 64)) (String (b64char n) (base64 rest))))
  end.

(** Value of a base64 character; Node also reads the URL-safe [-] and
    [_], and skips anything else. *)
Definition b64value (c : ascii) : option Z :=
  let n := Z.of_nat (nat_of_ascii c) in
  if (65 <=? n) && (n <=? 90) then Some (n - 65)
  else if (97 <=? n) && (n <=? 122) then Some (n - 71)
  else if (48 <=? n) && (n <=? 57) then Some (n + 4)
  else if (n =? 43) || (n =? 45) then Some 62
  else if (n =? 47) || (n =? 95) then Some 63
  else None.

(** The sextets of the text up to the first [=]. *)
Fixpoint sextets (s : string) : list Z :=
  match s with
  | EmptyString => []
  | String c rest =>
      if Ascii.eqb c "="%char then []
      else match b64value c with
           | Some v => v :: sextets rest
           | None => sextets rest
           end
  end.

Fixpoint unsextets (l : list Z) : list byte :=
  match l with
  | a :: b :: c :: d :: rest =>
      let n := a * 262144 + b * 4096 + c * 64 + d in
      zByte (n / 65536) :: zByte (n / 256) :: zByte n :: unsextets rest
  | [a; b; c] =>
      let n := a * 262144 + b * 4096 + c * 64 in
      [zByte (n / 65536); zByte (n / 256)]
  | [a; b] => [zByte ((a * 262144 + b * 4096) / 65536)]
  | _ => []
  end.

Definition unbase64 (s : string) : list byte := unsextets (sextets s).

(** *** MD5 (RFC 1321) on 32-bit words held in [Z] *)

Definition w32 (x : Z) : Z := x mod 4294967296.

Definition rotl (x c : Z) : Z :=
  w32 (Z.lor (Z.shiftl x c) (Z.shiftr x (32 - c))).

Definition not32 (x : Z) : Z := Z.lxor x 0xffffffff.

Definition md5K : list Z :=
  [ 0xd76aa478; 0xe8c7b756; 0x242070db; 0xc1bdceee;
    0xf57c0faf; 0x4787c62a; 0xa8304613; 0xfd469501;
    0x698098d8; 0x8b44f7af; 0xffff5bb1; 0x895cd7be;
    0x6b901122; 0xfd987193; 0xa679438e; 0x49b40821;
    0xf61e2562; 0xc040b340; 0x265e5a51; 0xe9b6c7aa;
    0xd62f105d; 0x02441453; 0xd8a1e681; 0xe7d3fbc8;
    0x21e1cde6; 0xc33707d6; 0xf4d50d87; 0x455a14ed;
    0xa9e3e905; 0xfcefa3f8; 0x676f02d9; 0x8d2a4c8a;
    0xfffa3942; 0x8771f681; 0x6d9d6122; 0xfde5380c;
    0xa4beea44; 0x4bdecfa9; 0xf6bb4b60; 0xbebfbc70;
    0x289b7ec6; 0xeaa127fa; 0xd4ef3085; 0x04881d05;
    0xd9d4d039; 0xe6db99e5; 0x1fa27cf8; 0xc4ac5665;
    0xf4292244; 0x432aff97; 0xab9423a7; 0xfc93a039;
    0x655b59c3; 0x8f0ccc92; 0xffeff47d; 0x85845dd1;
    0x6fa87e4f; 0xfe2ce6e0; 0xa3014314; 0x4e0811a1;
    0xf7537e82; 0xbd3af235; 0x2ad7d2bb; 0xeb86d391 ].

Definition md5S : list Z :=
  [ 7; 12; 17; 22; 7; 12; 17; 22; 7; 12; 17; 22; 7; 12; 17; 22;
    5; 9; 14; 20; 5; 9; 14; 20; 5; 9; 14; 20; 5; 9; 14; 20;
    4; 11; 16; 23; 4; 11; 16; 23; 4; 11; 16; 23; 4; 11; 16; 23;
    6; 10; 15; 21; 6; 10; 15; 21; 6; 10; 15; 21; 6; 10; 15; 21 ].

Definition md5state : Type := Z * Z * Z * Z.

Definition md5init : md5state :=
  (0x67452301, 0xefcdab89, 0x98badcfe, 0x10325476).

Definition md5step (m : list Z) (st : md5state) (iks : Z * (Z * Z)) : md5state :=
  let '(a, b, c, d) := st in
  let '(i, (k, s)) := iks in
  let f :=
    if i <? 16 then Z.lor (Z.land b c) (Z.land (not32 b) d)
    else if i <? 32 then Z.lor (Z.land d b) (Z.land (not32 d) c)
    else if i <? 48 then Z.lxor b (Z.lxor c d)
    else Z.lxor c (Z.lor b (not32 d)) in
  let g :=
    if i <? 16 then i
    else if i <? 32 then (5 * i + 1) mod 16
    else if i <? 48 then (3 * i + 5) mod 16
    else (7 * i) mod 16 in
  let f' := w32 (f + a + k + nth (Z.to_nat g) m 0) in
  (d, w32 (b + rotl f' s), b, c).

Definition md5rounds : list (Z * (Z * Z)) :=
  imap (fun i ks => (Z.of_nat i, ks)) (zip md5K md5S).

(** One 64-byte block, given as its sixteen little-endian words. *)
Definition md5block (st : md5state) (m : list Z) : md5state :=
  let '(a0, b0, c0, d0) := st in
  let '(a, b, c, d) := fold_left (md5step m) md5rounds st in
  (w32 (a0 + a), w32 (b0 + b), w32 (c0 + c), w32 (d0 + d)).

Definition leBytes (n : nat) (x : Z) : list Z :=
  map (fun i => (x / 2 ^ (8 * Z.of_nat i)) mod 256) (seq 0 n).

Fixpoint leWords (bs : list Z) : list Z :=
  match bs with
  | a :: b :: c :: d :: rest =>
      (a + b * 256 + c * 65536 + d * 16777216) :: leWords rest
  | _ => []
  end.

(** The message followed by [0x80], zeros up to 56 modulo 64, and the
    bit length on eight bytes. *)
Definition md5pad (msg : list Z) : list Z :=
  let len := Z.of_nat (length msg) in
  msg ++ [128] ++ repeat 0 (Z.to_nat ((55 - len) mod 64)) ++ leBytes 8 (len * 8).

Fixpoint md5blocks (n : nat) (bs : list Z) (st : md5state) : md5state :=
  match n with
  | O => st
  | S n' => md5blocks n' (drop 64 bs) (md5block st (leWords (take 64 bs)))
  end.

Definition md5 (msg : list byte) : md5state :=
  let padded := md5pad (map byteZ msg) in
  md5blocks (length padded / 64)%nat padded md5init.

Definition hexDigit (n : Z) : ascii :=
  nth (Z.to_nat (n mod 16)) (String.list_ascii_of_string "0123456789abcdef") "0"%char.

Definition hexByte (n : Z) : string :=
  String (hexDigit (n / 16)) (String (hexDigit n) "").

Definition hexWord (x : Z) : string :=
  hexByte (x mod 256) +:+ hexByte ((x / 256) mod 256) +:+
  hexByte ((x / 65536) mod 256) +:+ hexByte ((x / 16777216) mod 256).

Definition hexDigest (st : md5state) : string :=
  let '(a, b, c, d) := st in
  hexWord a +:+ hexWord b +:+ hexWord c +:+ hexWord d.

Definition bytesOfString (s : string) : list byte := String.list_byte_of_string s.

End Encoding.
Export Encoding.

(** [makeHash(key)]: the hexadecimal MD5 digest of the key's bytes. *)
Definition makeHash (key : list byte) : string := hexDigest (md5 key).

(** ** Promises, the store and the wrapped stream *)

Inductive error :=
| TypeError (msg : string)
| Raised (reason : jsval).

(** How a promise ends; [Pending] is a promise that is never settled. *)
Inductive outcome (A : Type) :=
| Resolved (a : A)
| Rejected (e : error)
| Pending.
Arguments Resolved {A} a.
Arguments Rejected {A} e.
Arguments Pending {A}.

(** What a synchronous call does. *)
Inductive completion (A : Type) :=
| Returned (a : A)
| Threw (e : error).
Arguments Returned {A} a.
Arguments Threw {A} e.

(** The contents of a cache entry: a string stored as it is, or the text
    [JSON.stringify(value, null, 2)], identified with the document it
    denotes. *)
Inductive text :=
| Verbatim (s : string)
| JsonText (doc : jsval).

(** Calls made on the collaborators, in the order they were made. *)
Inductive call :=
| CallKey (arg : jsval)
| CallGetCached (name key : string)
| CallAddCached (name key : string) (contents : text)
| CallRemoveCached (name key : string)
| CallWrite (file : jsval)
| CallEnd.

Inductive event := OnData | OnError | OnEnd.

Inductive handler :=
| HandleData
| HandleError
| HandleEnd
| Foreign (id : nat).

(** What the wrapped stream emits. *)
Inductive signal :=
| Data (file : jsval)
| Error (err : jsval)
| End (file : jsval).

Record world := World {
  cache : gmap (string * string) text;
  listeners : list (event * handler);
  maxListeners : option Z;
  files : list jsval;
  trace : list call }.

(** Updates of one component of the world. *)
Definition logged (cs : list call) (w : world) : world :=
  World (cache w) (listeners w) (maxListeners w) (files w) (trace w ++ cs).

Definition withCache (c : gmap (string * string) text) (w : world) : world :=
  World c (listeners w) (maxListeners w) (files w) (trace w).

Definition withFiles (fs : list jsval) (w : world) : world :=
  World (cache w) (listeners w) (maxListeners w) fs (trace w).

Definition withListeners (ls : list (event * handler)) (limit : option Z)
    (w : world) : world :=
  World (cache w) ls limit (files w) (trace w).

Definition M (A : Type) : Type := world -> outcome A * world.

Definition ret {A} (a : A) : M A := fun w => (Resolved a, w).

Definition reject {A} (e : error) : M A := fun w => (Rejected e, w).

Definition bind {A B} (m : M A) (k : A -> M B) : M B := fun w =>
  match m w with
  | (Resolved a, w') => k a w'
  | (Rejected e, w') => (Rejected e, w')
  | (Pending, w') => (Pending, w')
  end.

Notation "'let*' x ':=' m 'in' k" := (bind m (fun x => k))
  (at level 10, x name, m at level 100, k at level 200).

Definition log (cs : list call) : M unit := fun w => (Resolved tt, logged cs w).

(** [l[0]] *)
Definition first (l : list jsval) : jsval := default JUndefined (l !! 0%nat).

(** *** The options of an invocation

    An option that is a function is called with [this] bound to the
    options, and the defaults read [this.manyToMany]: the flag is the
    first argument here.  A function that answers through a promise or a
    node-style callback is given by the [outcome] it settles to. *)

Inductive successOption :=
| SuccessTrue
| SuccessFn (f : bool -> jsval -> completion jsval)
| SuccessPromiseFn (f : bool -> jsval -> outcome jsval)
| SuccessOther (v : jsval).

Inductive valueOption :=
| ValueFn (f : bool -> jsval -> outcome jsval)
| ValueName (property : string)
| ValueOther.

Record options := Options {
  name : string;
  key : bool -> jsval -> outcome jsval;
  manyToMany : bool;
  restore : option (bool -> jsval -> completion jsval);
  success : successOption;
  value : valueOption }.

Record TaskProxy := {
  task : option (list jsval -> list signal);
  opts : options;
  originalPaths : list jsval }.

Module Cached.
Record t := Make { key : jsval; value : jsval }.
End Cached.

Section Platform.

(** [JSON.parse] on a string that was stored verbatim; [None] when it
    throws. *)
Variable JSON_parse : string -> option jsval.

(** [new TaskProxy({task, files, opts})] *)
Definition newTaskProxy (t : option (list jsval -> list signal))
    (fs : list jsval) (o : options) : M TaskProxy := fun w =>
  (Resolved {| task := t; opts := o;
               originalPaths := map (fun f => getProp f "path") fs |},
   withFiles fs w).

Definition _getFileKey (p : TaskProxy) : M jsval := fun w =>
  let o := opts p in
  let arg := if manyToMany o then JArr (files w) else first (files w) in
  let w' := logged [CallKey arg] w in
  match key o (manyToMany o) arg with
  | Resolved k =>
      if negb (truthy k) then (Resolved k, w')
      else match k with
           | JStr s => (Resolved (JStr (makeHash (bytesOfString s))), w')
           | JBuffer bs => (Resolved (JStr (makeHash bs)), w')
           | _ => (Rejected (TypeError "Not a string or buffer"), w')
           end
  | Rejected e => (Rejected e, w')
  | Pending => (Pending, w')
  end.

(** [fileCache.getCached(name, key)], promisified. *)
Definition getCached (n : string) (k : jsval) : M (option text) :=
  match k with
  | JStr h => fun w =>
      (Resolved (cache w !! (n, h)), logged [CallGetCached n h] w)
  | _ => reject (TypeError "Path must be a string")
  end.

(** [fileCache.addCached(name, key, contents)], promisified. *)
Definition addCached (n : string) (k : jsval) (c : text) : M unit :=
  match k with
  | JStr h => fun w =>
      (Resolved tt,
       logged [CallAddCached n h c] (withCache (<[(n, h) := c]> (cache w)) w))
  | _ => reject (TypeError "Path must be a string")
  end.

(** [fileCache.removeCached(name, key)], promisified. *)
Definition removeCached (n : string) (k : jsval) : M unit :=
  match k with
  | JStr h => fun w =>
      (Resolved tt,
       logged [CallRemoveCached n h] (withCache (delete (n, h) (cache w)) w))
  | _ => reject (TypeError "Path must be a string")
  end.

(** [tryJsonParse(cached.contents)], with the fallback of the caller. *)
Definition parseContents (c : text) : jsval :=
  match c with
  | JsonText doc => doc
  | Verbatim s =>
      match JSON_parse s with
      | Some v => if strictEq v JUndefined then JObj [("cached", JStr s)] else v
      | None => JObj [("cached", JStr s)]
      end
  end.

Definition _checkForCachedValue (p : TaskProxy) : M Cached.t :=
  let* k := _getFileKey p in
  if negb (truthy k) then ret (Cached.Make k JNull)
  else
    let* cached := getCached (name (opts p)) k in
    match cached with
    | None => ret (Cached.Make k JNull)
    | Some c =>
        let parsedContents := parseContents c in
        match restore (opts p) with
        | Some r =>
            match r (manyToMany (opts p)) parsedContents with
            | Returned v => ret (Cached.Make k v)
            | Threw e => reject e
            end
        | None => ret (Cached.Make k parsedContents)
        end
    end.

(** *** The execution bridge *)

(** [emitter.removeListener(ev, h)]: the most recently added match. *)
Fixpoint removeFirst (ev : event) (h : handler)
    (ls : list (event * handler)) : list (event * handler) :=
  match ls with
  | [] => []
  | (ev', h') :: rest =>
      match ev, ev', h, h' with
      | OnData, OnData, HandleData, HandleData
      | OnError, OnError, HandleError, HandleError
      | OnEnd, OnEnd, HandleEnd, HandleEnd => rest
      | _, _, _, _ => (ev', h') :: removeFirst ev h rest
      end
  end.

Definition removeListener (ev : event) (h : handler)
    (ls : list (event * handler)) : list (event * handler) :=
  rev (removeFirst ev h (rev ls)).

(** Raise the listener limit by three and subscribe the three handlers. *)
Definition subscribe (w : world) : world :=
  let currMaxListeners := default 0 (maxListeners w) in
  withListeners
    (listeners w ++ [(OnData, HandleData); (OnError, HandleError);
                     (OnEnd, HandleEnd)])
    (Some (currMaxListeners + 3)) w.

(** What [handleError] and [handleEnd] do before they settle the
    promise: remove the three listeners, lower the limit again. *)
Definition unsubscribe (w : world) : world :=
  withListeners
    (removeListener OnEnd HandleEnd
       (removeListener OnData HandleData
          (removeListener OnError HandleError (listeners w))))
    ((fun n => n - 3) <$> maxListeners w) w.

(** The handlers at work on what the stream emits, [outputFiles] being
    the files collected so far. *)
Fixpoint collect (m2m : bool) (emitted : list signal)
    (outputFiles : list jsval) : outcome (list jsval) :=
  match emitted with
  | [] => Pending
  | Data file :: later =>
      if truthy file then
        if m2m then collect m2m later (outputFiles ++ [file])
        else Resolved (outputFiles ++ [file])
      else collect m2m later outputFiles
  | Error err :: _ => Rejected (Raised err)
  | End file :: _ =>
      Resolved (if truthy file then outputFiles ++ [file] else outputFiles)
  end.

Definition _runProxiedTask (p : TaskProxy) : M (list jsval) := fun w =>
  match task p with
  | None => (Rejected (TypeError "Cannot read property of null"), w)
  | Some stream =>
      let m2m := manyToMany (opts p) in
      let w1 := subscribe w in
      let inputs := if m2m then files w else [first (files w)] in
      let w2 := logged (map CallWrite inputs ++ (if m2m then [CallEnd] else []))
                       w1 in
      match collect m2m (stream inputs) [] with
      | Pending => (Pending, w2)
      | settled => (settled, unsubscribe w2)
      end
  end.

(** *** Extraction and storing *)

Definition _getValueFromResult (p : TaskProxy) (outputFiles : list jsval)
    : M jsval :=
  let o := opts p in
  match value o with
  | ValueOther => ret JUndefined
  | ValueName property =>
      let pick (file : jsval) := JObj [(property, getProp file property)] in
      if manyToMany o then ret (JArr (map pick outputFiles))
      else if strictEq (first outputFiles) JUndefined
           then reject (TypeError "Cannot read property of undefined")
           else ret (pick (first outputFiles))
  | ValueFn getValue =>
      fun w => (getValue (manyToMany o)
                  (if manyToMany o then JArr outputFiles else first outputFiles),
                w)
  end.

(** The two stamps of [_storeCachedResult] on the members of a value. *)
Definition stamp (originalPath : jsval) (ps : props) : props :=
  setProp
    (if negb (strictEq (getProp (JObj ps) "path") originalPath)
     then setProp ps "filePathChangedInsideTask" (JBool true)
     else ps)
    "originalPath" originalPath.

(** The text [_storeCachedResult] hands to [addCached] for an extracted
    value.  The copy made for a value with buffer contents is overwritten
    before it is used, so it leaves no trace here.  The two stamps are
    assigned on the value itself: they are members of a plain object,
    are lost on an array, a buffer or a date (whose JSON form does not
    list extra members), and cannot be assigned on a primitive in strict
    mode. *)
Definition storedText (p : TaskProxy) (v : jsval) : completion text :=
  let originalPath := first (originalPaths p) in
  match v with
  | JStr s => Returned (Verbatim s)
  | JUndefined | JNull => Threw (TypeError "Cannot read property 'path'")
  | JBool _ | JNum _ => Threw (TypeError "Cannot create property")
  | JObj ps => Returned (JsonText (toJSON (JObj (stamp originalPath ps))))
  | JBuffer _ | JDate _ | JArr _ => Returned (JsonText (toJSON v))
  end.

Definition _storeCachedResult (p : TaskProxy) (k : jsval)
    (outputFiles : list jsval) : M unit :=
  if negb (truthy k) then ret tt
  else
    let* v := _getValueFromResult p outputFiles in
    match storedText p v with
    | Returned val => addCached (name (opts p)) k val
    | Threw e => reject e
    end.

Definition _runProxiedTaskAndCache (p : TaskProxy) (cachedKey : jsval)
    : M (list jsval) :=
  let* outputFiles := _runProxiedTask p in
  let o := opts p in
  let arg := if manyToMany o then JArr outputFiles else first outputFiles in
  let store := (let* _ := _storeCachedResult p cachedKey outputFiles in
                ret outputFiles) in
  match success o with
  | SuccessTrue => store
  | SuccessFn f =>
      match f (manyToMany o) arg with
      | Returned r => if truthy r then store else ret outputFiles
      | Threw e => reject e
      end
  | SuccessPromiseFn _ => store
  | SuccessOther v =>
      if strictEq v (JBool true) then store
      else reject (TypeError "self.opts.success is not a function")
  end.

(** *** The orchestrator *)

Definition structuralFields : list string :=
  ["cwd"; "path"; "base"; "stat"; "history"].

(** The accepted one-to-one hit: the cached value extended onto the
    input file, which is changed in place. *)
Definition extendOntoFile (cachedValue : jsval) : M jsval := fun w =>
  match first (files w) with
  | JObj target =>
      let merged := objectAssign target (objectOmit cachedValue structuralFields) in
      let file :=
        if truthy (getProp cachedValue "path")
           && truthy (getProp cachedValue "filePathChangedInsideTask")
        then setProp merged "path" (getProp cachedValue "path")
        else merged in
      (Resolved (JArr [JObj file]),
       withFiles (<[0%nat := JObj file]> (files w)) w)
  | _ => (Rejected (TypeError "Cannot convert undefined or null to object"), w)
  end.

(** [self.files] *)
Definition readFiles : M (list jsval) := fun w => (Resolved (files w), w).

(** The test of [processFiles] on a cached value that was found, in
    one-to-one mode: the value is used unless it records a path changed
    inside the task for an input of another path. *)
Definition applicable (cachedValue inputFile : jsval) : bool :=
  negb (truthy (getProp cachedValue "filePathChangedInsideTask"))
  || strictEq (getProp cachedValue "originalPath") (getProp inputFile "path").

Definition runAndCache (p : TaskProxy) (cachedKey : jsval) : M jsval :=
  let* outputFiles := _runProxiedTaskAndCache p cachedKey in
  ret (JArr outputFiles).

Definition processFiles (p : TaskProxy) : M jsval :=
  let* cached := _checkForCachedValue p in
  let* inputs := readFiles in
  if truthy (Cached.value cached) then
    if manyToMany (opts p) then ret (Cached.value cached)
    else if applicable (Cached.value cached) (first inputs)
    then extendOntoFile (Cached.value cached)
    else runAndCache p (Cached.key cached)
  else runAndCache p (Cached.key cached).

Definition removeCachedResult (p : TaskProxy) : M unit :=
  let* cachedKey := _getFileKey p in
  removeCached (name (opts p)) cachedKey.

End Platform.

(** ** The plugin: defaults and the two transforms *)

Definition fileToObj (file : jsval) : jsval :=
  objectPick file ["cwd"; "base"; "contents"; "stat"; "history"; "path"].

(** An element of the array given to [new Buffer(array)]. *)
Definition toUint8 (v : jsval) : byte :=
  match v with
  | JNum n => zByte n
  | JBool true => zByte 1
  | _ => zByte 0
  end.

(** The first statement of [restoreFileFromObj]: contents written as
    [{type, data}], as a list of byte values or as base64 text become a
    buffer again. *)
Definition restoreContents (obj : jsval) : jsval :=
  match obj with
  | JObj ps =>
      let contents := getProp obj "contents" in
      if truthy contents then
        match getProp contents "data", contents with
        | JArr data, _ => JObj (setProp ps "contents" (JBuffer (map toUint8 data)))
        | _, JArr items => JObj (setProp ps "contents" (JBuffer (map toUint8 items)))
        | _, JStr s => JObj (setProp ps "contents" (JBuffer (unbase64 s)))
        | _, _ => obj
        end
      else obj
  | _ => obj
  end.

Section Plugin.

(** The [version] of [package.json]. *)
Variable VERSION : string.

(** The constructor of vinyl files, [new File(obj)], as the own
    properties of the file it builds. *)
Variable File : jsval -> props.

(** [file.isStream()] of vinyl: stream contents lie outside [jsval]. *)
Variable isStream : jsval -> bool.

Variable JSON_parse : string -> option jsval.

Definition restoreFileFromObj (obj : jsval) : completion jsval :=
  match obj with
  | JUndefined | JNull => Threw (TypeError "Cannot read property 'contents'")
  | _ =>
      let obj' := restoreContents obj in
      let restoredFile := File obj' in
      let extraTaskProperties := objectOmit obj' (keys restoredFile) in
      Returned (JObj (objectAssign restoredFile extraTaskProperties))
  end.

(** [array.map(f)] for an [f] that may throw. *)
Fixpoint mapThrowing (f : jsval -> completion jsval) (l : list jsval)
    : completion (list jsval) :=
  match l with
  | [] => Returned []
  | x :: rest =>
      match f x with
      | Threw e => Threw e
      | Returned y =>
          match mapThrowing f rest with
          | Threw e => Threw e
          | Returned ys => Returned (y :: ys)
          end
      end
  end.

(** [file.contents.toString('base64')]: vinyl lets the contents be a
    buffer, a stream or [null] only, and stream files are refused before
    a key is asked for. *)
Definition contentsBase64 (file : jsval) : completion string :=
  match getProp file "contents" with
  | JBuffer bs => Returned (base64 bs)
  | _ => Threw (TypeError "Cannot read property 'toString'")
  end.

Fixpoint joinContents (fs : list jsval) : completion string :=
  match fs with
  | [] => Returned ""
  | f :: rest =>
      match contentsBase64 f with
      | Threw e => Threw e
      | Returned s =>
          match joinContents rest with
          | Threw e => Threw e
          | Returned t => Returned (s +:+ t)
          end
      end
  end.

Definition defaultKey (m2m : bool) (fileOrFiles : jsval) : outcome jsval :=
  match (if m2m then fileOrFiles else JArr [fileOrFiles]) with
  | JArr fs =>
      match joinContents fs with
      | Returned filesContents => Resolved (JStr (VERSION +:+ filesContents))
      | Threw e => Rejected e
      end
  | _ => Rejected (TypeError "files.map is not a function")
  end.

Definition defaultRestore (m2m : bool) (v : jsval) : completion jsval :=
  if m2m then
    match v with
    | JArr l =>
        match mapThrowing restoreFileFromObj l with
        | Returned fs => Returned (JArr fs)
        | Threw e => Threw e
        end
    | _ => Threw (TypeError "value.map is not a function")
    end
  else restoreFileFromObj v.

Definition defaultValue (m2m : bool) (fileOrFiles : jsval) : outcome jsval :=
  if m2m then
    match fileOrFiles with
    | JArr fs => Resolved (JArr (map fileToObj fs))
    | _ => Rejected (TypeError "fileOrFiles.map is not a function")
    end
  else Resolved (fileToObj fileOrFiles).

Definition defaultOptions : options := {|
  name := "default";
  key := defaultKey;
  manyToMany := false;
  restore := Some defaultRestore;
  success := SuccessTrue;
  value := ValueFn defaultValue |}.

(** Options as a caller or a task's [cacheable] member gives them: the
    members that are present, whatever their value. *)
Record overrides := Overrides {
  with_name : option string;
  with_key : option (bool -> jsval -> outcome jsval);
  with_manyToMany : option bool;
  with_restore : option (option (bool -> jsval -> completion jsval));
  with_success : option successOption;
  with_value : option valueOption }.

(** [objectAssign({}, base, given)] *)
Definition assignOptions (base : options) (given : overrides) : options := {|
  name := default (name base) (with_name given);
  key := default (key base) (with_key given);
  manyToMany := default (manyToMany base) (with_manyToMany given);
  restore := default (restore base) (with_restore given);
  success := default (success base) (with_success given);
  value := default (value base) (with_value given) |}.

Definition noOverrides : overrides := Overrides None None None None None None.

(** The options of [cacheTask(task, opts)]: the caller's over the task's
    [cacheable] over the defaults. *)
Definition resolveOptions (cacheable given : overrides) : options :=
  assignOptions (assignOptions defaultOptions cacheable) given.

Inductive pluginError :=
| PluginError (plugin : string) (cause : error).

(** How a call of the transform ends: the callback called without or
    with an error, or not called at all. *)
Inductive callback :=
| Done
| Failed (e : pluginError)
| NotCalled.

(** A transform stream of the plugin: the files it holds back in
    many-to-many mode and the files it has pushed downstream. *)
Record pipe := Pipe {
  inputFiles : list jsval;
  pushed : list jsval;
  outside : world }.

(** [file.isNull()] of vinyl. *)
Definition isNull (file : jsval) : bool := strictEq (getProp file "contents") JNull.

Definition streamSources : pluginError :=
  PluginError "gulp-cache" (Raised (JStr "Cannot operate on stream sources")).

(** The inner [processFiles(transform, files, cb)] of [cacheTask]. *)
Definition runProxy (t : option (list jsval -> list signal)) (o : options)
    (fs : list jsval) (s : pipe) : callback * pipe :=
  match (let* p := newTaskProxy t fs o in processFiles JSON_parse p) (outside s) with
  | (Resolved (JArr outputFiles), w) =>
      (Done, Pipe (inputFiles s) (pushed s ++ outputFiles) w)
  | (Resolved _, w) => (NotCalled, Pipe (inputFiles s) (pushed s) w)
  | (Rejected err, w) =>
      (Failed (PluginError "gulp-cache" err), Pipe (inputFiles s) (pushed s) w)
  | (Pending, w) => (NotCalled, Pipe (inputFiles s) (pushed s) w)
  end.

(** The inner [removeFiles(transform, files, cb)] of [cacheTask.clear]. *)
Definition removeFiles (o : options) (fs : list jsval) (s : pipe)
    : callback * pipe :=
  match (let* p := newTaskProxy None fs o in removeCachedResult p) (outside s) with
  | (Resolved _, w) => (Done, Pipe (inputFiles s) (pushed s ++ [first fs]) w)
  | (Rejected err, w) =>
      (Failed (PluginError "gulp-cache" err), Pipe (inputFiles s) (pushed s) w)
  | (Pending, w) => (NotCalled, Pipe (inputFiles s) (pushed s) w)
  end.

(** A transform stream as the pipeline drives it. *)
Record transformer := Transformer {
  transform : jsval -> pipe -> callback * pipe;
  flush : pipe -> callback * pipe }.

(** The body both transforms are built on; [work] is [runProxy] or
    [removeFiles]. *)
Definition transformer_of (work : list jsval -> pipe -> callback * pipe)
    (o : options) : transformer := {|
  transform file s :=
    if isNull file then
      (Done, Pipe (inputFiles s) (pushed s ++ [file]) (outside s))
    else if isStream file then (Failed streamSources, s)
    else if manyToMany o then
      (Done, Pipe (inputFiles s ++ [file]) (pushed s) (outside s))
    else work [file] s;
  flush s :=
    if manyToMany o then work (inputFiles s) s else (Done, s) |}.

(** [cacheTask(task, opts)], [cacheable] being the member of that name
    of the task. *)
Definition cacheTask (t : option (list jsval -> list signal))
    (cacheable given : overrides) : completion transformer :=
  match t with
  | None => Threw (Raised (JStr "Must pass a task to cache()"))
  | Some _ =>
      let o := resolveOptions cacheable given in
      Returned (transformer_of (runProxy t o) o)
  end.

(** [cacheTask.clear(opts)] *)
Definition clear (given : overrides) : transformer :=
  let o := assignOptions defaultOptions given in
  transformer_of (removeFiles o) o.

End Plugin.


(** ** Vocabulary of the statements *)

(** The argument the key function is called with. *)
Definition keyArgument (p : TaskProxy) (w : world) : jsval :=
  if manyToMany (opts p) then JArr (files w) else first (files w).

(** The files written to the wrapped stream, and the calls this makes. *)
Definition taskInputs (p : TaskProxy) (w : world) : list jsval :=
  if manyToMany (opts p) then files w else [first (files w)].

Definition taskCalls (p : TaskProxy) (w : world) : list call :=
  map CallWrite (taskInputs p w)
  ++ (if manyToMany (opts p) then [CallEnd] else []).

(** The calls made between two states of the world. *)
Definition during (w w' : world) : list call :=
  drop (length (trace w)) (trace w').

Definition isWrite (c : call) : bool :=
  match c with CallWrite _ => true | _ => false end.

Definition isAdd (c : call) : bool :=
  match c with CallAddCached _ _ _ => true | _ => false end.

Definition isLookup (c : call) : bool :=
  match c with CallKey _ | CallGetCached _ _ => true | _ => false end.

(** [processFiles] answers from the cache: a value was found and, in
    one-to-one mode, it applies to the input. *)
Definition usesCache (o : options) (c : Cached.t) (inputs : list jsval) : bool :=
  truthy (Cached.value c)
  && (manyToMany o || applicable (Cached.value c) (first inputs)).

(** Nothing in [emitted] settles the promise of the bridge: no error, no
    end and, in one-to-one mode, no file. *)
Definition listening (m2m : bool) (emitted : list signal) : bool :=
  forallb (fun s => match s with
                    | Data file => m2m || negb (truthy file)
                    | Error _ | End _ => false
                    end) emitted.

(** A cached value that records a path changed inside the task for an
    input of another path. *)
Definition stale (cachedValue inputFile : jsval) : bool :=
  truthy (getProp cachedValue "filePathChangedInsideTask")
  && negb (strictEq (getProp cachedValue "originalPath")
                    (getProp inputFile "path")).

(** The condition for running the task again as the specification words
    it: the one of the code, and the stored path must differ from the
    input's as well. *)
Definition staleAsSpecified (cachedValue inputFile : jsval) : bool :=
  negb (strictEq (getProp cachedValue "path") (getProp inputFile "path"))
  && stale cachedValue inputFile.

(** The member [k] of the input file after an accepted one-to-one hit on
    the cached value [v]. *)
Definition mergedMember (v : jsval) (target : props) (k : string)
    : option jsval :=
  if decide (k = "path") then
    if truthy (getProp v "path")
       && truthy (getProp v "filePathChangedInsideTask")
    then Some (getProp v "path")
    else lookup "path" target
  else if decide (k ∈ structuralFields) then lookup k target
  else match lookup k (ownProps v) with
       | Some x => Some x
       | None => lookup k target
       end.

(** The members [objectPick] keeps of [ps]. *)
Definition pickedOf (ps : props) (ks : list string) : props :=
  flat_map (fun k => match lookup k ps with
                     | Some v => [(k, v)]
                     | None => []
                     end) ks.

(** The members [fileToObj] keeps. *)
Definition retainedFields : list string :=
  ["cwd"; "base"; "contents"; "stat"; "history"; "path"].

(** What vinyl lets the contents of a file in memory be. *)
Definition isVinylContents (v : jsval) : bool :=
  match v with
  | JNull | JBuffer _ => true
  | _ => false
  end.

(** The object [arg] read back from the store carries what was retained
    of the output [out]: the contents as they were, every other retained
    member as its JSON form, which is the member itself when it is made
    of [null], booleans, numbers, strings, arrays and objects. *)
Definition carries (out arg : jsval) : Prop :=
  getProp arg "contents" = getProp out "contents"
  /\ forall k, k ∈ retainedFields -> k <> "contents" ->
       getProp arg k = toJSON (getProp out k)
       /\ (jsonPlain (getProp out k) = true -> getProp arg k = getProp out k).

(** The file [restoreFileFromObj] returns for the object [arg]: the file
    the constructor builds, with the members of [arg] the constructor did
    not set laid over it. *)
Definition overlay (File : jsval -> props) (arg : jsval) : jsval :=
  JObj (objectAssign (File arg) (objectOmit arg (keys (File arg)))).

(** The text the default key function builds from the version and the
    contents of the inputs, in order. *)
Definition defaultKeyText (VERSION : string) (contents : list (list byte))
    : string :=
  VERSION +:+ foldr (fun bs rest => base64 bs +:+ rest) "" contents.

Definition hexDigits : list ascii :=
  String.list_ascii_of_string "0123456789abcdef".

(** One invocation of the proxy, as both transforms start it: a proxy is
    built for the files, then asked to process them. *)
Definition invocation (JSON_parse : string -> option jsval)
    (t : option (list jsval -> list signal)) (o : options) (fs : list jsval)
    : M jsval :=
  let* p := newTaskProxy t fs o in processFiles JSON_parse p.

(** The three handlers of the bridge, in the order it subscribes them. *)
Definition bridgeListeners : list (event * handler) :=
  [(OnData, HandleData); (OnError, HandleError); (OnEnd, HandleEnd)].

(** The files a stream emitted as data, the falsy ones left out. *)
Definition collected (fs : list jsval) : list jsval := List.filter truthy fs.

(** The pipe after the files [fs] went through [transform] one by one. *)
Definition feed (tr : transformer) (fs : list jsval) (s : pipe) : pipe :=
  fold_left (fun s f => (transform tr f s).2) fs s.

(** [cacheTask.clearAll(done)].  The store answers [fileCache.clear] with
    an error message or without; [done] tells whether a callback was
    given.  A store that answered without error holds nothing. *)
Inductive cleared :=
| DoneCalled (e : option pluginError)
| ThrewPluginError (e : pluginError)
| Returns.

Definition clearAll (storeError : option string) (done : bool) (w : world)
    : cleared * world :=
  match storeError with
  | Some message =>
      let pluginError_ :=
        PluginError "gulp-cache"
          (Raised (JStr ("Problem clearing the cache: " +:+ message))) in
      (if done then DoneCalled (Some pluginError_)
       else ThrewPluginError pluginError_, w)
  | None => (if done then DoneCalled None else Returns, withCache ∅ w)
  end.

(** A string of decimal digits, as the index of an array member is. *)
Definition isDigit (c : ascii) : bool :=
  (48 <=? Z.of_nat (nat_of_ascii c)) && (Z.of_nat (nat_of_ascii c) <=? 57).

Fixpoint digitsOnly (s : string) : bool :=
  match s with
  | EmptyString => true
  | String c rest => isDigit c && digitsOnly rest
  end.

(** The files of [fs] a transform in many-to-many mode holds back for
    the batch, and the ones it forwards at once. *)
Definition held (fs : list jsval) : list jsval :=
  List.filter (fun f => negb (isNull f)) fs.

Definition forwarded (fs : list jsval) : list jsval := List.filter isNull fs.

(** No file of [fs] has a stream for contents. *)
Definition inMemory (isStream : jsval -> bool) (fs : list jsval) : bool :=
  forallb (fun f => isNull f || negb (isStream f)) fs.

(** The options of [cacheTask.clear(opts)]. *)
Definition clearOptions (VERSION : string) (File : jsval -> props)
    (given : overrides) : options :=
  assignOptions (defaultOptions VERSION File) given.

(** The file a stored document is restored to. *)
Definition restored (File : jsval -> props) (doc : jsval) : jsval :=
  overlay File (restoreContents doc).

(** ** A concrete platform for the worked examples *)

Module Sample.

(** The constructor of vinyl 1.x, read off its documentation: the
    history starts at the path given, the working directory defaults to
    that of the process, the base to the working directory, stat and
    contents to [null].  [contents] stands for the field behind the
    accessor of that name. *)
Definition vinylFile (o : jsval) : props :=
  let or_else (v d : jsval) := if truthy v then v else d in
  let cwd := or_else (getProp o "cwd") (JStr "/work") in
  [ ("history", if truthy (getProp o "path") then JArr [getProp o "path"]
                else or_else (getProp o "history") (JArr []));
    ("cwd", cwd);
    ("base", or_else (getProp o "base") cwd);
    ("stat", or_else (getProp o "stat") JNull);
    ("contents", or_else (getProp o "contents") JNull);
    ("_isVinyl", JBool true) ].

Definition noParse (s : string) : option jsval := None.

Definition noStream (file : jsval) : bool := false.

Definition version : string := "0.4.5".

Definition vinyl (path : string) (contents : jsval) : jsval :=
  JObj [ ("history", JArr [JStr path]); ("cwd", JStr "/work");
         ("base", JStr "/work"); ("stat", JNull); ("contents", contents);
         ("path", JStr path) ].

Definition buffer (s : string) : jsval := JBuffer (bytesOfString s).

Definition idle : world := World ∅ [] None [] [].

Definition defaults : options := defaultOptions version vinylFile.

Definition withFlag (m2m : bool) (o : options) : options :=
  Options (name o) (key o) m2m (restore o) (success o) (value o).

Definition withSuccess (s : successOption) (o : options) : options :=
  Options (name o) (key o) (manyToMany o) (restore o) s (value o).

Definition withValue (v : valueOption) (o : options) : options :=
  Options (name o) (key o) (manyToMany o) (restore o) (success o) v.

Definition withKey (k : bool -> jsval -> outcome jsval) (o : options) : options :=
  Options (name o) k (manyToMany o) (restore o) (success o) (value o).

(** A task that gives every file new contents. *)
Definition shout (inputs : list jsval) : list signal :=
  map (fun f => Data (JObj (setProp (ownProps f) "contents" (buffer "ABC"))))
      inputs ++ [End JUndefined].

(** A task that moves every file to another path. *)
Definition moveTo (path : string) (inputs : list jsval) : list signal :=
  map (fun f => Data (JObj (setProp (ownProps f) "path" (JStr path)))) inputs
  ++ [End JUndefined].

(** A task that fails after its first output. *)
Definition failing (inputs : list jsval) : list signal :=
  [Data (first inputs); Error (JStr "boom"); End JUndefined].

(** One invocation of the proxy, as the transforms start it. *)
Definition invoke (t : option (list jsval -> list signal)) (o : options)
    (fs : list jsval) : M jsval :=
  let* p := newTaskProxy t fs o in processFiles noParse p.

Definition proxy (t : option (list jsval -> list signal)) (o : options)
    (fs : list jsval) : TaskProxy :=
  {| task := t; opts := o; originalPaths := map (fun f => getProp f "path") fs |}.

Definition input : jsval := vinyl "/work/a.txt" (buffer "abc").

Definition other : jsval := vinyl "/work/b.txt" (buffer "xyz").

(** The world and the proxy of an invocation on [fs]. *)
Definition before (fs : list jsval) : world := withFiles fs idle.

(** What the lookup of [p] yields in [w]. *)
Definition found (p : TaskProxy) (w : world) : Cached.t :=
  match (_checkForCachedValue noParse p w).1 with
  | Resolved c => c
  | _ => Cached.Make JUndefined JUndefined
  end.

Definition afterLookup (p : TaskProxy) (w : world) : world :=
  (_checkForCachedValue noParse p w).2.

Definition noKey : options := withKey (fun _ _ => Resolved JNull) defaults.

Definition refusing : options :=
  withSuccess (SuccessFn (fun _ _ => Returned (JBool false))) defaults.

Definition refusingLater : options :=
  withSuccess (SuccessPromiseFn (fun _ _ => Resolved (JBool false))) defaults.

Definition refusingFlag : options :=
  withSuccess (SuccessOther (JBool false)) defaults.

Definition noValue : options := withValue ValueOther defaults.

Definition nothing : jsval := vinyl "/work/empty.txt" JNull.

Definition emptyPipe : pipe := Pipe [] [] idle.

Definition cachingOptions : options :=
  resolveOptions version vinylFile noOverrides noOverrides.

Definition caching : transformer :=
  transformer_of noStream (runProxy noParse (Some shout) cachingOptions)
    cachingOptions.

Definition inputProxy : TaskProxy := proxy (Some shout) defaults [input].

Definition moved : jsval := vinyl "/work/b.txt" (buffer "abc").

(** The world after a first invocation on [moved], whose task moves the
    file to the path of [input]. *)
Definition afterMove : world :=
  (invoke (Some (moveTo "/work/a.txt")) defaults [moved] idle).2.

(** The world after a first invocation on [input] itself. *)
Definition afterShout : world :=
  (invoke (Some shout) defaults [input] idle).2.

(** A second invocation, on [input], in a world a first one left. *)
Definition again (w : world) : world := withFiles [input] w.

Definition inputMembers : props := ownProps input.

(** A file as [gulp.src] reads it, with the times of its stat record. *)
Definition dated : jsval :=
  JObj [ ("history", JArr [JStr "/work/a.txt"]); ("cwd", JStr "/work");
         ("base", JStr "/work");
         ("stat", JObj [("size", JNum 3);
                        ("mtime", JDate "2016-05-01T10:00:00.000Z")]);
         ("contents", buffer "abc"); ("path", JStr "/work/a.txt") ].

(** Default extraction, storing and default restoring of one output of
    an invocation on [input]. *)
Definition roundTrip (out : jsval) : jsval :=
  match defaultValue false out with
  | Resolved v =>
      match storedText (proxy None defaults [input]) v with
      | Returned t =>
          match defaultRestore vinylFile false (parseContents noParse t) with
          | Returned restored => restored
          | Threw _ => JUndefined
          end
      | Threw _ => JUndefined
      end
  | _ => JUndefined
  end.

Definition batchOptions : options := withFlag true defaults.

Definition batchProxy : TaskProxy :=
  proxy (Some (moveTo "/work/out.txt")) batchOptions [input; other].

Definition batchKey : string :=
  makeHash (bytesOfString
    (defaultKeyText version [bytesOfString "abc"; bytesOfString "xyz"])).

(** The elements stored by an invocation on the batch [input], [other]. *)
Definition storedBatch : list jsval :=
  match cache (invoke (Some (moveTo "/work/out.txt")) batchOptions
                 [input; other] idle).2 !! ("default", batchKey) with
  | Some (JsonText (JArr docs)) => docs
  | _ => []
  end.

Definition movedOut (f : jsval) : jsval :=
  JObj (setProp (ownProps f) "path" (JStr "/work/out.txt")).

Definition noKeyProxy : TaskProxy := proxy (Some shout) noKey [input].

Definition failingProxy : TaskProxy :=
  proxy (Some failing) (withFlag true defaults) [input; other].

Definition refusingProxy : TaskProxy := proxy (Some shout) refusing [input].

Definition shouted (f : jsval) : jsval :=
  JObj (setProp (ownProps f) "contents" (buffer "ABC")).

(** A task that never emits anything. *)
Definition silent (inputs : list jsval) : list signal := [].

Definition silentProxy : TaskProxy := proxy (Some silent) defaults [input].

Definition hastyProxy : TaskProxy := proxy (Some failing) defaults [input].

Definition shoutBatchProxy : TaskProxy :=
  proxy (Some shout) batchOptions [input; other].

(** The world after the entry of [input] was removed from [afterShout]. *)
Definition shoutedKey : string :=
  makeHash (bytesOfString (defaultKeyText version [bytesOfString "abc"])).

Definition rejectingKey : options :=
  withKey (fun _ _ => Rejected (Raised (JStr "no key"))) defaults.

Definition rejectingKeyProxy : TaskProxy :=
  proxy (Some shout) rejectingKey [input].

Definition sampleKeyText : string :=
  defaultKeyText version [bytesOfString "abc"].

(** Options whose value rule yields a string, and that do not restore. *)
Definition textOptions : options :=
  Options "default" (key defaults) false None SuccessTrue
    (ValueFn (fun _ _ => Resolved (JStr "plain text"))).

Definition textProxy : TaskProxy := proxy (Some shout) textOptions [input].

Definition batchOfOne : TaskProxy := proxy (Some shout) batchOptions [input].

Definition joined : jsval := vinyl "/work/c.txt" (buffer "abcxyz").

Definition batchOverrides : overrides :=
  Overrides None None (Some true) None None None.

Definition batchCachingOptions : options :=
  resolveOptions version vinylFile noOverrides batchOverrides.

Definition batchCaching : transformer :=
  transformer_of noStream (runProxy noParse (Some shout) batchCachingOptions)
    batchCachingOptions.

Definition arrivals : list jsval := [input; nothing; other].

(** A pipe in the world a first invocation on [input] left. *)
Definition shoutedPipe : pipe := Pipe [] [] afterShout.

(** Proxies without a task, for invocations that must not run one. *)
Definition idleProxy : TaskProxy := proxy None defaults [input].

Definition idleBatchProxy : TaskProxy :=
  proxy None batchOptions [input; other].

Definition batchKeyText : string :=
  defaultKeyText version [bytesOfString "abc"; bytesOfString "xyz"].

(** Options that store the contents of the output only. *)
Definition contentsOnly : options := withValue (ValueName "contents") defaults.

Definition contentsOnlyProxy : TaskProxy :=
  proxy (Some shout) contentsOnly [input].

End Sample.

(** * Properties *)

(** ** The encodings on known values *)

Example makeHash_empty :
  makeHash [] = "d41d8cd98f00b204e9800998ecf8427e".
Proof. vm_compute. reflexivity. Qed.

Example makeHash_abc :
  makeHash (bytesOfString "abc") = "900150983cd24fb0d6963f7d28e17f72".
Proof. vm_compute. reflexivity. Qed.

Example makeHash_two_blocks :
  makeHash (bytesOfString
    "12345678901234567890123456789012345678901234567890123456789012345678901234567890")
  = "57edf4a22be3c955ac49da2e2107b67a".
Proof. vm_compute. reflexivity. Qed.

Example base64_abc : base64 (bytesOfString "abc") = "YWJj".
Proof. vm_compute. reflexivity. Qed.

Example base64_padding :
  base64 (bytesOfString "a") = "YQ==" /\ base64 (bytesOfString "ab") = "YWI=".
Proof. vm_compute. split; reflexivity. Qed.

Example base64_high_bytes : base64 [xff; xfe; xfd] = "//79".
Proof. vm_compute. reflexivity. Qed.

Example unbase64_inverts :
  unbase64 "YWJj" = bytesOfString "abc" /\ unbase64 "YQ==" = bytesOfString "a"
  /\ unbase64 "YWI=" = bytesOfString "ab".
Proof. vm_compute. repeat split; reflexivity. Qed.

Section Flow.

Variable JSON_parse : string -> option jsval.

Lemma during_logged w cs : during w (logged cs w) = cs.
Proof. unfold during, logged; simpl. by rewrite drop_app_length. Qed.

Lemma during_app w w' cs : trace w' = trace w ++ cs -> during w w' = cs.
Proof. intros H. unfold during. rewrite H. by rewrite drop_app_length. Qed.

Lemma removeListener_ours (ls : list (event * handler)) :
  removeListener OnEnd HandleEnd
    (removeListener OnData HandleData
       (removeListener OnError HandleError
          (ls ++ [(OnData, HandleData); (OnError, HandleError);
                  (OnEnd, HandleEnd)]))) = ls.
Proof.
  unfold removeListener.
  rewrite rev_app_distr. simpl. rewrite rev_involutive.
  rewrite rev_app_distr. simpl. rewrite rev_involutive.
  rewrite rev_app_distr. simpl. by rewrite rev_involutive.
Qed.

(** After the bridge has settled the stream has the listeners it had
    before, and the limit it had, [undefined] read as 0. *)
Lemma unsubscribe_subscribe w cs :
  unsubscribe (logged cs (subscribe w))
  = World (cache w) (listeners w) (Some (default 0 (maxListeners w)))
          (files w) (trace w ++ cs).
Proof.
  unfold unsubscribe, subscribe, logged, withListeners; simpl.
  rewrite removeListener_ours. f_equal. f_equal. lia.
Qed.

Lemma runProxiedTask_eq p w stream :
  task p = Some stream ->
  _runProxiedTask p w =
    match collect (manyToMany (opts p)) (stream (taskInputs p w)) [] with
    | Pending => (Pending, logged (taskCalls p w) (subscribe w))
    | settled =>
        (settled,
         World (cache w) (listeners w) (Some (default 0 (maxListeners w)))
               (files w) (trace w ++ taskCalls p w))
    end.
Proof.
  intros Ht. unfold _runProxiedTask, taskCalls, taskInputs. rewrite Ht.
  destruct (collect _ _ _); by rewrite ?unsubscribe_subscribe.
Qed.

(** What was emitted while the bridge listened is forgotten when an error
    follows. *)
Lemma collect_error m2m before err after acc :
  listening m2m before = true ->
  collect m2m (before ++ Error err :: after) acc = Rejected (Raised err).
Proof.
  revert acc. induction before as [|s before IH]; intros acc Hl; [done|].
  simpl in Hl. apply andb_true_iff in Hl as [Hs Hl].
  destruct s as [file| |]; try done. simpl.
  destruct (truthy file), m2m; simpl in Hs; try done; by apply IH.
Qed.

Lemma getFileKey_world p w :
  (_getFileKey p w).2 = logged [CallKey (keyArgument p w)] w.
Proof.
  unfold _getFileKey, keyArgument.
  destruct (key _ _ _) as [k| |]; [|done..].
  destruct (negb (truthy k)); [done|]. by destruct k.
Qed.

Lemma getFileKey_falsy p w k :
  key (opts p) (manyToMany (opts p)) (keyArgument p w) = Resolved k ->
  truthy k = false ->
  _getFileKey p w = (Resolved k, logged [CallKey (keyArgument p w)] w).
Proof.
  intros Hk Hf. unfold _getFileKey, keyArgument in *. rewrite Hk, Hf. done.
Qed.

(** The lookup leaves the store, the stream and the files alone and
    makes lookup calls only. *)
Lemma checkForCachedValue_frame p w r w1 :
  _checkForCachedValue JSON_parse p w = (r, w1) ->
  cache w1 = cache w /\ listeners w1 = listeners w
  /\ maxListeners w1 = maxListeners w /\ files w1 = files w
  /\ exists cs, trace w1 = trace w ++ cs /\ forallb isLookup cs = true.
Proof.
  unfold _checkForCachedValue, bind.
  pose proof (getFileKey_world p w) as Hw.
  destruct (_getFileKey p w) as [[k|e|] w0]; simpl in Hw; subst w0.
  2,3: intros [= <- <-]; simpl; repeat split; try done;
       eexists; split; done.
  destruct (negb (truthy k)).
  { intros [= <- <-]; simpl; repeat split; try done; eexists; split; done. }
  unfold getCached. destruct k;
    try (intros [= <- <-]; simpl; repeat split; try done;
         eexists; split; done).
  simpl. destruct (cache w !! _) as [c|].
  - destruct (restore (opts p)) as [r0|].
    + destruct (r0 _ _); intros [= <- <-]; simpl; repeat split; try done;
        rewrite <- app_assoc; eexists; split; done.
    + intros [= <- <-]; simpl; repeat split; try done;
        rewrite <- app_assoc; eexists; split; done.
  - intros [= <- <-]; simpl; repeat split; try done;
      rewrite <- app_assoc; eexists; split; done.
Qed.

(** Without a usable cached value the invocation is the run of the task. *)
Lemma processFiles_runs p w c w1 :
  _checkForCachedValue JSON_parse p w = (Resolved c, w1) ->
  usesCache (opts p) c (files w1) = false ->
  processFiles JSON_parse p w = runAndCache p (Cached.key c) w1.
Proof.
  intros Hc Hu. unfold processFiles, bind at 1. rewrite Hc.
  unfold bind at 1, readFiles. unfold usesCache in Hu.
  destruct (truthy (Cached.value c)); [|done].
  destruct (manyToMany (opts p)); [done|]. simpl in Hu. by rewrite Hu.
Qed.

End Flow.

Section Misses.

Variable JSON_parse : string -> option jsval.

Lemma storeCachedResult_falsy p k outs w :
  truthy k = false -> _storeCachedResult p k outs w = (Resolved tt, w).
Proof. intros Hk. unfold _storeCachedResult. by rewrite Hk. Qed.

Lemma taskCalls_no_add p w : forallb (fun c => negb (isAdd c)) (taskCalls p w) = true.
Proof.
  unfold taskCalls. rewrite forallb_app. apply andb_true_iff. split.
  - induction (taskInputs p w); [done|]. simpl. done.
  - by destruct (manyToMany (opts p)).
Qed.

Lemma lookups_no_add cs :
  forallb isLookup cs = true -> forallb (fun c => negb (isAdd c)) cs = true.
Proof.
  induction cs as [|c cs IH]; [done|]. simpl.
  intros [Hc Hcs]%andb_true_iff. rewrite IH by done. by destruct c.
Qed.

(** With a falsy key the run of the task is all that happens. *)
Lemma runAndCache_falsy_key p k w stream :
  task p = Some stream ->
  truthy k = false ->
  cache (runAndCache p k w).2 = cache w
  /\ trace (runAndCache p k w).2 = trace w ++ taskCalls p w.
Proof.
  intros Ht Hk. unfold runAndCache, _runProxiedTaskAndCache, bind.
  rewrite (runProxiedTask_eq _ _ _ Ht).
  destruct (collect _ _ _) as [outs|e|]; [|done..].
  destruct (success (opts p)) as [|f|f|v]; simpl.
  - by rewrite storeCachedResult_falsy.
  - destruct (f _ _) as [r|e]; [|done].
    destruct (truthy r); [|done]. by rewrite storeCachedResult_falsy.
  - by rewrite storeCachedResult_falsy.
  - destruct (strictEq v (JBool true)); [|done].
    by rewrite storeCachedResult_falsy.
Qed.

(** C6.  When the key function yields a falsy key, the invocation is an
    unconditional miss: after the call of the key function the only
    calls made are those that run the wrapped task (a write per input,
    and the end of the batch), so [getCached] and [addCached] are never
    called, and the store is left as it was. *)
Theorem falsy_key_never_touches_store p w k stream :
  task p = Some stream ->
  key (opts p) (manyToMany (opts p)) (keyArgument p w) = Resolved k ->
  truthy k = false ->
  cache (processFiles JSON_parse p w).2 = cache w
  /\ during w (processFiles JSON_parse p w).2
     = CallKey (keyArgument p w) :: taskCalls p w.
Proof.
  intros Ht Hk Hf.
  assert (_checkForCachedValue JSON_parse p w
          = (Resolved (Cached.Make k JNull), logged [CallKey (keyArgument p w)] w))
    as Hc.
  { unfold _checkForCachedValue, bind. rewrite (getFileKey_falsy _ _ _ Hk Hf).
    by rewrite Hf. }
  rewrite (processFiles_runs _ _ _ _ _ Hc) by done. simpl.
  destruct (runAndCache_falsy_key p k (logged [CallKey (keyArgument p w)] w)
              stream Ht Hf) as [-> Htr].
  split; [done|]. apply during_app. rewrite Htr. simpl.
  by rewrite <- app_assoc.
Qed.

(** C9.  When the wrapped stream signals an error while the bridge is
    listening, the invocation rejects with that error, the stream is left
    with the listeners it had before the run, and the files collected
    before the error go nowhere: the store is unchanged and no call of
    [addCached] is made. *)
Theorem task_error_rejects_and_discards p w c w1 stream before err after :
  task p = Some stream ->
  _checkForCachedValue JSON_parse p w = (Resolved c, w1) ->
  usesCache (opts p) c (files w1) = false ->
  stream (taskInputs p w1) = before ++ Error err :: after ->
  listening (manyToMany (opts p)) before = true ->
  exists w',
    processFiles JSON_parse p w = (Rejected (Raised err), w')
    /\ listeners w' = listeners w
    /\ cache w' = cache w
    /\ forallb (fun c => negb (isAdd c)) (during w w') = true.
Proof.
  intros Ht Hc Hu Hs Hl.
  rewrite (processFiles_runs _ _ _ _ _ Hc Hu).
  unfold runAndCache, _runProxiedTaskAndCache, bind.
  rewrite (runProxiedTask_eq _ _ _ Ht), Hs, (collect_error _ _ _ _ _ Hl).
  destruct (checkForCachedValue_frame _ _ _ _ _ Hc)
    as (Hcache & Hlis & _ & _ & cs & Htr & Hcs).
  eexists; split; [done|]. simpl. repeat split; try done.
  rewrite (during_app w _ (cs ++ taskCalls p w1)).
  - rewrite forallb_app, (lookups_no_add _ Hcs). apply taskCalls_no_add.
  - simpl. by rewrite Htr, <- app_assoc.
Qed.

(** C3, as the code has it.  When the success option is a function that
    returns a falsy value for the output of the task, the invocation
    resolves with the files the task produced, the store is unchanged and
    no call of [addCached] is made. *)
Theorem failed_predicate_skips_store p w c w1 stream outs f r :
  task p = Some stream ->
  _checkForCachedValue JSON_parse p w = (Resolved c, w1) ->
  usesCache (opts p) c (files w1) = false ->
  collect (manyToMany (opts p)) (stream (taskInputs p w1)) [] = Resolved outs ->
  success (opts p) = SuccessFn f ->
  f (manyToMany (opts p))
    (if manyToMany (opts p) then JArr outs else first outs) = Returned r ->
  truthy r = false ->
  exists w',
    processFiles JSON_parse p w = (Resolved (JArr outs), w')
    /\ cache w' = cache w
    /\ forallb (fun c => negb (isAdd c)) (during w w') = true.
Proof.
  intros Ht Hc Hu Hs Hf Hr Hfalsy.
  rewrite (processFiles_runs _ _ _ _ _ Hc Hu).
  unfold runAndCache, _runProxiedTaskAndCache, bind.
  rewrite (runProxiedTask_eq _ _ _ Ht), Hs, Hf, Hr, Hfalsy.
  destruct (checkForCachedValue_frame _ _ _ _ _ Hc)
    as (Hcache & _ & _ & _ & cs & Htr & Hcs).
  eexists; split; [done|]. simpl. split; [done|].
  rewrite (during_app w _ (cs ++ taskCalls p w1)).
  - rewrite forallb_app, (lookups_no_add _ Hcs). apply taskCalls_no_add.
  - simpl. by rewrite Htr, <- app_assoc.
Qed.

(** Without a value rule, whatever the task produced, the value to store
    is [undefined] and storing it throws once there is a key. *)
Lemma no_value_rule_always_rejects p w c w1 stream outs h :
  task p = Some stream ->
  _checkForCachedValue JSON_parse p w = (Resolved c, w1) ->
  usesCache (opts p) c (files w1) = false ->
  Cached.key c = JStr h ->
  h <> "" ->
  collect (manyToMany (opts p)) (stream (taskInputs p w1)) [] = Resolved outs ->
  success (opts p) = SuccessTrue ->
  value (opts p) = ValueOther ->
  exists w',
    processFiles JSON_parse p w
    = (Rejected (TypeError "Cannot read property 'path'"), w')
    /\ cache w' = cache w.
Proof.
  intros Ht Hc Hu Hk Hh Hs Hsucc Hval.
  rewrite (processFiles_runs _ _ _ _ _ Hc Hu).
  unfold runAndCache, _runProxiedTaskAndCache, bind.
  rewrite (runProxiedTask_eq _ _ _ Ht), Hs, Hsucc, Hk.
  unfold _storeCachedResult, _getValueFromResult, bind.
  assert (truthy (JStr h) = true) as -> by (by destruct h).
  rewrite Hval. simpl.
  destruct (checkForCachedValue_frame _ _ _ _ _ Hc) as (Hcache & _).
  by eexists.
Qed.

End Misses.

(** The scenario of the specification: the first invocation runs the task
    and stores its output, the second one answers from the store with
    the same contents and does not run the task. *)
Example first_run_stores_second_run_skips :
  (Sample.invoke (Some Sample.shout) Sample.defaults [Sample.input] Sample.idle).1
  = Resolved (JArr [Sample.shouted Sample.input])
  /\ existsb isAdd (trace Sample.afterShout) = true
  /\ getProp (first (files (Sample.invoke (Some Sample.shout) Sample.defaults
                              [Sample.input] Sample.afterShout).2)) "contents"
     = Sample.buffer "ABC"
  /\ existsb isWrite
       (during Sample.afterShout
          (Sample.invoke (Some Sample.shout) Sample.defaults
             [Sample.input] Sample.afterShout).2) = false.
Proof. vm_compute. repeat split; reflexivity. Qed.

(** An invocation on one file whose key function yields [null]. *)
Lemma falsy_key_witness :
  cache (processFiles Sample.noParse
           Sample.noKeyProxy
           (Sample.before [Sample.input])).2 = ∅
  /\ during (Sample.before [Sample.input])
       (processFiles Sample.noParse
          Sample.noKeyProxy
          (Sample.before [Sample.input])).2
     = [CallKey Sample.input; CallWrite Sample.input].
Proof.
  apply (falsy_key_never_touches_store Sample.noParse
           Sample.noKeyProxy
           (Sample.before [Sample.input]) JNull Sample.shout);
    reflexivity.
Defined.

(** A batch of two files on a task that fails after its first output. *)
Lemma task_error_witness :
  exists w',
    processFiles Sample.noParse
      Sample.failingProxy
      (Sample.before [Sample.input; Sample.other])
    = (Rejected (Raised (JStr "boom")), w')
    /\ listeners w' = []
    /\ cache w' = ∅
    /\ forallb (fun c => negb (isAdd c))
         (during (Sample.before [Sample.input; Sample.other]) w') = true.
Proof.
  apply (task_error_rejects_and_discards Sample.noParse
           Sample.failingProxy
           (Sample.before [Sample.input; Sample.other])
           (Sample.found Sample.failingProxy
              (Sample.before [Sample.input; Sample.other]))
           (Sample.afterLookup Sample.failingProxy
              (Sample.before [Sample.input; Sample.other]))
           Sample.failing [Data Sample.input] (JStr "boom") [End JUndefined]);
    vm_compute; reflexivity.
Defined.

(** One file on a task whose output the success function refuses. *)
Lemma failed_predicate_witness :
  exists w',
    processFiles Sample.noParse
      Sample.refusingProxy
      (Sample.before [Sample.input])
    = (Resolved (JArr [Sample.shouted Sample.input]), w')
    /\ cache w' = ∅
    /\ forallb (fun c => negb (isAdd c))
         (during (Sample.before [Sample.input]) w') = true.
Proof.
  apply (failed_predicate_skips_store Sample.noParse
           Sample.refusingProxy
           (Sample.before [Sample.input])
           (Sample.found Sample.refusingProxy (Sample.before [Sample.input]))
           (Sample.afterLookup Sample.refusingProxy (Sample.before [Sample.input]))
           Sample.shout [Sample.shouted Sample.input]
           (fun _ _ => Returned (JBool false)) (JBool false));
    vm_compute; reflexivity.
Defined.

(** C3 fails as stated.  A success function that reports failure through
    a promise does not keep the result out of the store: the promise
    object is truthy, and [addCached] is called.  A success option that
    is the boolean [false] is called as a function, and the invocation
    rejects instead of resolving with the output. *)
Lemma promised_or_boolean_failure_not_honoured :
  existsb isAdd
    (trace (Sample.invoke (Some Sample.shout) Sample.refusingLater
              [Sample.input] Sample.idle).2) = true
  /\ size (cache (Sample.invoke (Some Sample.shout) Sample.refusingLater
                    [Sample.input] Sample.idle).2) = 1%nat
  /\ (Sample.invoke (Some Sample.shout) Sample.refusingFlag
        [Sample.input] Sample.idle).1
     = Rejected (TypeError "self.opts.success is not a function").
Proof. vm_compute. repeat split; reflexivity. Qed.

(** C5 at a failing input.  With no value rule and a key, the value to
    store is [undefined]; reading its [path] throws, and the invocation
    rejects although the task succeeded.  Nothing is stored. *)
Theorem missing_value_rule_rejects :
  (Sample.invoke (Some Sample.shout) Sample.noValue [Sample.input]
     Sample.idle).1
  = Rejected (TypeError "Cannot read property 'path'")
  /\ cache (Sample.invoke (Some Sample.shout) Sample.noValue [Sample.input]
              Sample.idle).2 = ∅.
Proof. vm_compute. split; reflexivity. Qed.

Section Streams.

Variable VERSION : string.
Variable File : jsval -> props.
Variable isStream : jsval -> bool.
Variable JSON_parse : string -> option jsval.

(** C10.  A file without contents goes straight downstream, in the
    caching transform and in the clearing transform, whatever the
    options: it is pushed as it is, it is not held back for the batch,
    and the world outside the transform (store, wrapped stream, trace of
    calls) is untouched, so no key is computed, nothing is looked up or
    stored, and the task is not run. *)
Theorem null_files_pass_through t cacheable given given' tr file s :
  cacheTask VERSION File isStream JSON_parse t cacheable given = Returned tr ->
  isNull file = true ->
  transform tr file s
  = (Done, Pipe (inputFiles s) (pushed s ++ [file]) (outside s))
  /\ transform (clear VERSION File isStream given') file s
     = (Done, Pipe (inputFiles s) (pushed s ++ [file]) (outside s)).
Proof.
  intros Htr Hnull. unfold cacheTask in Htr.
  destruct t; [|done]. injection Htr as <-.
  unfold clear, transformer_of; simpl. by rewrite Hnull.
Qed.

End Streams.

Lemma null_files_witness :
  transform Sample.caching Sample.nothing Sample.emptyPipe
  = (Done, Pipe [] [Sample.nothing] Sample.idle)
  /\ transform (clear Sample.version Sample.vinylFile Sample.noStream noOverrides)
       Sample.nothing Sample.emptyPipe
     = (Done, Pipe [] [Sample.nothing] Sample.idle).
Proof.
  apply (null_files_pass_through Sample.version Sample.vinylFile Sample.noStream
           Sample.noParse (Some Sample.shout) noOverrides noOverrides noOverrides
           Sample.caching Sample.nothing Sample.emptyPipe);
    reflexivity.
Defined.

Section Keys.

Variable VERSION : string.

Lemma hexDigit_in n : In (hexDigit n) hexDigits.
Proof.
  unfold hexDigit. apply nth_In. change (length _) with 16%nat.
  pose proof (Z.mod_pos_bound n 16). lia.
Qed.

(** The digest is 128 bits written as 32 hexadecimal digits. *)
Lemma makeHash_hex bs :
  String.length (makeHash bs) = 32%nat
  /\ Forall (fun c => In c hexDigits) (String.list_ascii_of_string (makeHash bs)).
Proof.
  unfold makeHash, hexDigest. destruct (md5 bs) as [[[a b] c] d].
  split; [reflexivity|]. cbn -[hexDigit hexDigits].
  repeat (constructor; [apply hexDigit_in|]). constructor.
Qed.

Lemma joinContents_buffers fs contents :
  Forall2 (fun f bs => getProp f "contents" = JBuffer bs) fs contents ->
  joinContents fs
  = Returned (foldr (fun bs rest => base64 bs +:+ rest) "" contents).
Proof.
  induction 1 as [|f bs fs contents Hf _ IH]; [done|].
  simpl. unfold contentsBase64. by rewrite Hf, IH.
Qed.

Lemma truthy_prefixed (s t : string) : s <> "" -> truthy (JStr (s +:+ t)) = true.
Proof. destruct s; [done|]. done. Qed.


End Keys.

Example sample_key :
  makeHash (bytesOfString (defaultKeyText Sample.version [bytesOfString "abc"]))
  = "295d2f5c0a15248bf2225a94ea889528".
Proof. vm_compute. reflexivity. Qed.


(** ** Objects as association lists *)

Section Objects.

Lemma lookup_setProp k k' v ps :
  lookup k (setProp ps k' v) = if String.eqb k k' then Some v else lookup k ps.
Proof.
  induction ps as [|[k0 v0] ps IH]; simpl; [done|].
  destruct (String.eqb_spec k' k0) as [->|Hne]; simpl.
  - by destruct (String.eqb k k0).
  - rewrite IH. destruct (String.eqb_spec k k0) as [->|]; [|done].
    destruct (String.eqb_spec k0 k'); [congruence|done].
Qed.

Lemma lookup_absent k ps : k ∉ keys ps -> lookup k ps = None.
Proof.
  induction ps as [|[k0 v0] ps IH]; simpl; [done|].
  intros Hk. apply not_elem_of_cons in Hk as [Hne Hk].
  destruct (String.eqb_spec k k0); [done|]. by apply IH.
Qed.

Lemma lookup_present k ps : k ∈ keys ps -> is_Some (lookup k ps).
Proof.
  induction ps as [|[k0 v0] ps IH]; simpl.
  - by intros ?%elem_of_nil.
  - intros [->|Hk]%elem_of_cons.
    + rewrite String.eqb_refl. by eexists.
    + destruct (String.eqb k k0); [by eexists|]. by apply IH.
Qed.

Lemma keys_setProp ps k v :
  keys (setProp ps k v) = if decide (k ∈ keys ps) then keys ps else keys ps ++ [k].
Proof.
  induction ps as [|[k0 v0] ps IH]; simpl; [done|].
  destruct (String.eqb_spec k k0) as [->|Hne]; simpl.
  - rewrite decide_True; [done|]. apply elem_of_cons; by left.
  - rewrite IH. destruct (decide (k ∈ keys ps)) as [Hin|Hout].
    + rewrite decide_True; [done|]. apply elem_of_cons; by right.
    + rewrite decide_False; [done|]. by intros [?|?]%elem_of_cons.
Qed.

Lemma NoDup_setProp ps k v : NoDup (keys ps) -> NoDup (keys (setProp ps k v)).
Proof.
  intros Hnd. rewrite keys_setProp. destruct (decide _); [done|].
  apply NoDup_app. repeat split; [done| |apply NoDup_singleton].
  intros x Hx ->%list_elem_of_singleton. done.
Qed.

Lemma lookup_omitted k (ks : list string) (ps : props) :
  lookup k (filter (fun kv => kv.1 ∉ ks) ps)
  = if decide (k ∈ ks) then None else lookup k ps.
Proof.
  induction ps as [|[k0 v0] ps IH]; simpl.
  - by destruct (decide _).
  - rewrite filter_cons. simpl. destruct (decide (k0 ∉ ks)) as [Hout|Hin]; simpl.
    + rewrite IH. destruct (String.eqb_spec k k0) as [->|]; [|done].
      by destruct (decide (k0 ∈ ks)).
    + rewrite IH. destruct (String.eqb_spec k k0) as [->|]; [|done].
      destruct (decide (k0 ∈ ks)) as [|Hout]; [done|]. by destruct Hin.
Qed.

Lemma NoDup_omitted (ks : list string) (ps : props) :
  NoDup (keys ps) -> NoDup (keys (filter (fun kv => kv.1 ∉ ks) ps)).
Proof.
  induction ps as [|[k0 v0] ps IH]; simpl; [done|].
  intros [Hout Hnd]%NoDup_cons. rewrite filter_cons. simpl.
  destruct (decide _); [|by apply IH]. simpl. apply NoDup_cons. split; [|by apply IH].
  intros Hin. apply Hout. unfold keys in *.
  apply list_elem_of_fmap in Hin as (kv & -> & Hkv).
  apply list_elem_of_filter in Hkv as [_ Hkv].
  apply list_elem_of_fmap. by exists kv.
Qed.

(** Assigning the members of a source over a target: the source wins. *)
Lemma lookup_assigned k target source :
  NoDup (keys source) ->
  lookup k (fold_left (fun t kv => setProp t kv.1 kv.2) source target)
  = match lookup k source with
    | Some v => Some v
    | None => lookup k target
    end.
Proof.
  revert target. induction source as [|[k0 v0] source IH]; intros target; [done|].
  simpl. intros [Hout Hnd]%NoDup_cons. rewrite IH by done.
  rewrite lookup_setProp.
  destruct (String.eqb_spec k k0) as [->|]; [|done].
  by rewrite (lookup_absent _ _ Hout).
Qed.

(** [objectOmit] with keys to leave out never returns its argument. *)
Lemma objectOmit_filter v k (ks : list string) :
  objectOmit v (k :: ks) = JObj (filter (fun kv => kv.1 ∉ k :: ks) (ownProps v)).
Proof. unfold objectOmit. by destruct v. Qed.

End Objects.

Section Hits.

Variable JSON_parse : string -> option jsval.

Lemma applicable_stale v f : applicable v f = negb (stale v f).
Proof.
  unfold applicable, stale. by destruct (truthy _), (strictEq _ _).
Qed.

Lemma getValueFromResult_world p outs w : (_getValueFromResult p outs w).2 = w.
Proof.
  unfold _getValueFromResult. destruct (value (opts p)); [done| |done].
  destruct (manyToMany (opts p)); [done|]. by destruct (strictEq _ _).
Qed.

Lemma storeCachedResult_trace p k outs w :
  exists more, trace (_storeCachedResult p k outs w).2 = trace w ++ more.
Proof.
  unfold _storeCachedResult. destruct (negb (truthy k)).
  { exists []. simpl. by rewrite app_nil_r. }
  unfold bind. pose proof (getValueFromResult_world p outs w) as Hw.
  destruct (_getValueFromResult p outs w) as [[v|e|] w0]; simpl in Hw; subst w0.
  2,3: exists []; simpl; by rewrite app_nil_r.
  destruct (storedText p v) as [val|e].
  - unfold addCached. destruct k; try (exists []; simpl; by rewrite app_nil_r).
    by eexists.
  - exists []. simpl. by rewrite app_nil_r.
Qed.

(** Running the task starts with the writes to the wrapped stream. *)
Lemma runAndCache_trace p k w stream :
  task p = Some stream ->
  exists more, trace (runAndCache p k w).2 = trace w ++ taskCalls p w ++ more.
Proof.
  intros Ht. unfold runAndCache, _runProxiedTaskAndCache, bind.
  rewrite (runProxiedTask_eq _ _ _ Ht).
  destruct (collect _ _ _) as [outs|e|].
  2,3: exists []; simpl; by rewrite app_nil_r.
  set (w2 := World _ _ _ _ _).
  assert (forall more1, trace w2 ++ more1 = trace w ++ taskCalls p w ++ more1)
    as Hw2 by (intros; simpl; by rewrite <- app_assoc).
  assert (exists more,
    trace (let (o, w') := _storeCachedResult p k outs w2 in
           match o with
           | Resolved _ => (Resolved (JArr outs), w')
           | Rejected e => (Rejected e, w')
           | Pending => (Pending, w')
           end).2 = trace w ++ taskCalls p w ++ more) as Hstore.
  { destruct (storeCachedResult_trace p k outs w2) as [more Hmore].
    exists more. rewrite <- Hw2, <- Hmore.
    by destruct (_storeCachedResult p k outs w2) as [[[]| |] ?]. }
  assert (exists more, trace w2 = trace w ++ taskCalls p w ++ more) as Hnone.
  { exists []. rewrite <- Hw2. by rewrite app_nil_r. }
  destruct (success (opts p)) as [|f|f|v]; simpl.
  - destruct Hstore as [more Hm]. exists more. rewrite <- Hm.
    by destruct (_storeCachedResult p k outs w2) as [[[]| |] ?].
  - destruct (f _ _) as [r|e]; [|done]. destruct (truthy r); [|done].
    destruct Hstore as [more Hm]. exists more. rewrite <- Hm.
    by destruct (_storeCachedResult p k outs w2) as [[[]| |] ?].
  - destruct Hstore as [more Hm]. exists more. rewrite <- Hm.
    by destruct (_storeCachedResult p k outs w2) as [[[]| |] ?].
  - destruct (strictEq v (JBool true)); [|done].
    destruct Hstore as [more Hm]. exists more. rewrite <- Hm.
    by destruct (_storeCachedResult p k outs w2) as [[[]| |] ?].
Qed.

Lemma lookups_no_write cs : forallb isLookup cs = true -> existsb isWrite cs = false.
Proof.
  induction cs as [|c cs IH]; [done|]. simpl.
  intros [Hc Hcs]%andb_true_iff. rewrite IH by done. by destruct c.
Qed.

(** An accepted hit is the merge onto the input, and nothing else. *)
Lemma processFiles_accepts p w c w1 :
  manyToMany (opts p) = false ->
  _checkForCachedValue JSON_parse p w = (Resolved c, w1) ->
  truthy (Cached.value c) = true ->
  stale (Cached.value c) (first (files w)) = false ->
  processFiles JSON_parse p w = extendOntoFile (Cached.value c) w1.
Proof.
  intros Hm Hc Hv Hs. unfold processFiles, bind at 1. rewrite Hc.
  unfold bind at 1, readFiles. rewrite Hv, Hm.
  destruct (checkForCachedValue_frame _ _ _ _ _ Hc) as (_ & _ & _ & -> & _).
  by rewrite applicable_stale, Hs.
Qed.



End Hits.




(** ** The JSON form *)

Section Json.

Lemma toJSON_obj ps : toJSON (JObj ps) = JObj (jsonMembers ps).
Proof. reflexivity. Qed.

Lemma toJSON_undefined v : toJSON v = JUndefined -> v = JUndefined.
Proof. by destruct v. Qed.

Lemma toJSON_plain : forall v, jsonPlain v = true -> toJSON v = v.
Proof.
  fix IH 1. intros [ | |b|n|s|bs|iso|l|ps]; simpl; try done.
  - intros Hl. f_equal. induction l as [|x l IHl]; [done|].
    simpl in Hl. apply andb_true_iff in Hl as [Hx Hl]. simpl.
    rewrite (IH x Hx), IHl by done. by destruct x.
  - intros Hps. f_equal. induction ps as [|[k x] ps IHps]; [done|].
    simpl in Hps. apply andb_true_iff in Hps as [Hx Hps].
    rewrite (IH x Hx), IHps by done. by destruct x.
Qed.

Lemma lookup_jsonMembers k ps :
  NoDup (keys ps) ->
  lookup k (jsonMembers ps)
  = match lookup k ps with
    | Some x => match toJSON x with JUndefined => None | y => Some y end
    | None => None
    end.
Proof.
  induction ps as [|[k0 x0] ps IH]; [done|]. simpl.
  intros [Hout Hnd]%NoDup_cons. specialize (IH Hnd).
  destruct (String.eqb_spec k k0) as [->|Hne].
  - rewrite (lookup_absent _ _ Hout) in IH.
    destruct (toJSON x0); simpl; rewrite ?String.eqb_refl; done.
  - destruct (toJSON x0); simpl; try done;
      by destruct (String.eqb_spec k k0).
Qed.

Lemma getProp_jsonMembers k ps :
  NoDup (keys ps) ->
  getProp (JObj (jsonMembers ps)) k = toJSON (getProp (JObj ps) k).
Proof.
  intros Hnd. unfold getProp; simpl. rewrite lookup_jsonMembers by done.
  destruct (lookup k ps) as [x|]; [|done]. simpl. by destruct (toJSON x).
Qed.

Lemma keys_jsonMembers k ps : k ∈ keys (jsonMembers ps) -> k ∈ keys ps.
Proof.
  induction ps as [|[k0 x0] ps IH]; [done|]. simpl.
  destruct (toJSON x0); simpl;
    try (intros [->|Hin]%elem_of_cons; [by left|]); try intros Hin;
    right; by apply IH.
Qed.

Lemma NoDup_jsonMembers ps : NoDup (keys ps) -> NoDup (keys (jsonMembers ps)).
Proof.
  induction ps as [|[k0 x0] ps IH]; [done|]. simpl.
  intros [Hout Hnd]%NoDup_cons.
  assert (k0 ∉ keys (jsonMembers ps)) by (intros ?; by apply Hout, keys_jsonMembers).
  destruct (toJSON x0); simpl; try (by apply IH);
    apply NoDup_cons; split; try done; by apply IH.
Qed.

End Json.

(** ** Extraction, storing and restoring *)

Section Serialization.

Variable File : jsval -> props.
Variable JSON_parse : string -> option jsval.

Lemma fileToObj_members out :
  fileToObj out = JObj (pickedOf (ownProps out) retainedFields).
Proof. by destruct out. Qed.

Lemma keys_picked ps (ks : list string) k :
  k ∈ keys (pickedOf ps ks) -> k ∈ ks.
Proof.
  induction ks as [|k0 ks IH]; simpl; [done|].
  unfold keys in *. rewrite fmap_app. intros [Hk|Hk]%elem_of_app.
  - destruct (lookup k0 ps); simpl in Hk.
    + apply list_elem_of_singleton in Hk as ->. by left.
    + by apply elem_of_nil in Hk.
  - right. by apply IH.
Qed.

Lemma NoDup_picked ps (ks : list string) :
  NoDup ks -> NoDup (keys (pickedOf ps ks)).
Proof.
  induction ks as [|k0 ks IH]; simpl; [intros; apply NoDup_nil_2|].
  intros [Hout Hnd]%NoDup_cons. unfold keys in *. rewrite fmap_app.
  destruct (lookup k0 ps); simpl; [|by apply IH].
  apply NoDup_cons. split; [|by apply IH].
  intros Hin. by apply Hout, (keys_picked ps).
Qed.

Lemma lookup_picked ps (ks : list string) k :
  NoDup ks ->
  lookup k (pickedOf ps ks) = if decide (k ∈ ks) then lookup k ps else None.
Proof.
  induction ks as [|k0 ks IH]; simpl; [done|].
  intros [Hout Hnd]%NoDup_cons. specialize (IH Hnd).
  destruct (decide (k = k0)) as [->|Hne].
  - rewrite decide_True by (by left).
    destruct (lookup k0 ps) as [v|] eqn:Hv; simpl.
    + by rewrite String.eqb_refl.
    + rewrite IH. by rewrite decide_False.
  - assert (lookup k (match lookup k0 ps with
                      | Some v => [(k0, v)]
                      | None => []
                      end ++ pickedOf ps ks) = lookup k (pickedOf ps ks)) as ->.
    { destruct (lookup k0 ps); simpl; [|done].
      by destruct (String.eqb_spec k k0). }
    rewrite IH. destruct (decide (k ∈ ks)) as [Hin|Hnin].
    + rewrite decide_True; [done|]. by right.
    + rewrite decide_False; [done|]. by intros [?|?]%elem_of_cons.
Qed.

Lemma NoDup_retained : NoDup retainedFields.
Proof. apply (bool_decide_unpack _). vm_compute. exact I. Qed.

Lemma toUint8_byteNum b : toUint8 (byteNum b) = b.
Proof. by destruct b. Qed.

Lemma bytes_restored bs : map toUint8 (map byteNum bs) = bs.
Proof.
  induction bs as [|b bs IH]; [done|].
  change (map toUint8 (map byteNum (b :: bs)))
    with (toUint8 (byteNum b) :: map toUint8 (map byteNum bs)).
  by rewrite toUint8_byteNum, IH.
Qed.

(** Reading back the JSON form of an object whose contents are a buffer
    or [null]: the contents are the ones written, the other members are
    their JSON forms. *)
Lemma restoreContents_written ps :
  NoDup (keys ps) ->
  isVinylContents (getProp (JObj ps) "contents") = true ->
  exists ms,
    restoreContents (JObj (jsonMembers ps)) = JObj ms
    /\ NoDup (keys ms)
    /\ forall k, getProp (JObj ms) k
                 = if String.eqb k "contents" then getProp (JObj ps) "contents"
                   else toJSON (getProp (JObj ps) k).
Proof.
  intros Hnd Hc. unfold restoreContents.
  rewrite (getProp_jsonMembers "contents" ps Hnd).
  destruct (getProp (JObj ps) "contents") as [ | | | | |bs| | | ] eqn:Hps;
    try done; simpl.
  - exists (jsonMembers ps). split; [done|]. split.
    + clear Hps Hc. induction ps as [|[k0 x0] ps IH]; [done|].
      apply NoDup_cons in Hnd as [Hout Hnd]. simpl.
      assert (k0 ∉ keys (jsonMembers ps)) as Hout'.
      { intros Hin. apply Hout. clear -Hin.
        induction ps as [|[k1 x1] ps IH]; [done|]. simpl in *.
        destruct (toJSON x1); simpl in Hin;
          try (apply elem_of_cons in Hin as [->|Hin]; [by left|]);
          right; by apply IH. }
      destruct (toJSON x0); simpl; try (by apply IH);
        apply NoDup_cons; split; try done; by apply IH.
    + intros k. destruct (String.eqb_spec k "contents") as [->|].
      * rewrite (getProp_jsonMembers "contents" ps Hnd). by rewrite Hps.
      * by apply getProp_jsonMembers.
  - rewrite bytes_restored. eexists. split; [done|]. split.
    + by apply NoDup_setProp, NoDup_jsonMembers.
    + intros k. unfold getProp at 1; simpl. rewrite lookup_setProp.
      destruct (String.eqb k "contents"); [done|].
      by apply getProp_jsonMembers.
Qed.

Lemma carries_of_members out ps :
  NoDup (keys ps) ->
  (forall k, k ∈ retainedFields -> lookup k ps = lookup k (ownProps out)) ->
  isVinylContents (getProp out "contents") = true ->
  exists ms,
    restoreContents (JObj (jsonMembers ps)) = JObj ms
    /\ NoDup (keys ms)
    /\ carries out (JObj ms).
Proof.
  intros Hnd Hsame Hc.
  assert (forall k, k ∈ retainedFields -> getProp (JObj ps) k = getProp out k)
    as Hget.
  { intros k Hk. unfold getProp. simpl. by rewrite Hsame. }
  assert ("contents" ∈ retainedFields) as Hin by (unfold retainedFields; set_solver).
  rewrite <- (Hget _ Hin) in Hc.
  destruct (restoreContents_written ps Hnd Hc) as (ms & Hms & Hndms & Hk).
  exists ms. split; [done|]. split; [done|]. split.
  - rewrite Hk. simpl. by apply Hget.
  - intros k Hkin Hne. rewrite Hk.
    destruct (String.eqb_spec k "contents"); [done|].
    rewrite (Hget _ Hkin). split; [done|]. intros Hp. by apply toJSON_plain.
Qed.

(** The restored file: what the constructor sets is the constructor's,
    every other member is that of the object read back. *)
Lemma overlay_member ms k :
  NoDup (keys ms) ->
  getProp (overlay File (JObj ms)) k
  = default (getProp (JObj ms) k) (lookup k (File (JObj ms))).
Proof.
  intros Hnd. unfold overlay, getProp. simpl.
  destruct (keys (File (JObj ms))) as [|k0 ks] eqn:Hkeys.
  - unfold objectOmit, objectAssign. simpl.
    destruct (File (JObj ms)); [|done]. simpl.
    rewrite lookup_assigned by done. by destruct (lookup k ms).
  - rewrite objectOmit_filter. unfold objectAssign. simpl.
    rewrite lookup_assigned by (by apply NoDup_omitted).
    rewrite lookup_omitted, <- Hkeys.
    destruct (decide (k ∈ keys (File (JObj ms)))) as [Hin|Hout].
    + by destruct (lookup_present _ _ Hin) as [x ->].
    + rewrite (lookup_absent _ _ Hout). by destruct (lookup k ms).
Qed.

Lemma retained_not_stamp k :
  k ∈ retainedFields ->
  String.eqb k "originalPath" = false
  /\ String.eqb k "filePathChangedInsideTask" = false.
Proof.
  unfold retainedFields. intros Hk.
  repeat (apply elem_of_cons in Hk as [->|Hk]; [done|]).
  by apply elem_of_nil in Hk.
Qed.

Lemma restore_batch docs :
  Forall (fun doc => exists ms, doc = JObj ms) docs ->
  mapThrowing (restoreFileFromObj File) docs
  = Returned (map (fun doc => overlay File (restoreContents doc)) docs).
Proof.
  induction 1 as [|doc docs [ms ->] _ IH]; [done|].
  cbn [mapThrowing map]. by rewrite IH.
Qed.

(** The stored batch: the JSON forms of the extracted elements. *)
Lemma toJSON_batch outs :
  toJSON (JArr (map fileToObj outs))
  = JArr (map (fun out => JObj (jsonMembers (pickedOf (ownProps out) retainedFields)))
              outs).
Proof.
  simpl. f_equal. induction outs as [|out outs IH]; [done|].
  simpl map. rewrite IH. f_equal. by rewrite fileToObj_members.
Qed.

(** C4, as the code has it.  In many-to-many mode with the default
    extraction, what is stored under the key is the JSON array of the
    extracted elements, one for each output in order.  The two stamps are
    assigned once, on the array itself, which its JSON form does not
    show: no element of the stored batch has an [originalPath] or a
    [filePathChangedInsideTask] member. *)
Theorem batch_elements_are_not_stamped p w h outs :
  manyToMany (opts p) = true ->
  value (opts p) = ValueFn defaultValue ->
  h <> "" ->
  exists docs w',
    _storeCachedResult p (JStr h) outs w = (Resolved tt, w')
    /\ cache w' !! (name (opts p), h) = Some (JsonText (JArr docs))
    /\ docs = map (fun out => toJSON (fileToObj out)) outs
    /\ Forall (fun doc => getProp doc "originalPath" = JUndefined
                          /\ getProp doc "filePathChangedInsideTask" = JUndefined)
              docs.
Proof.
  intros Hm Hv Hh.
  unfold _storeCachedResult, _getValueFromResult, bind.
  assert (truthy (JStr h) = true) as -> by (by destruct h).
  rewrite Hv, Hm. cbn beta iota delta [negb defaultValue].
  unfold storedText. rewrite toJSON_batch. unfold addCached.
  eexists _, _. split; [done|]. cbn [cache logged withCache].
  rewrite lookup_insert_eq. split; [done|]. split.
  - apply map_ext. intros out. by rewrite fileToObj_members.
  - apply Forall_forall. intros doc (out & -> & _)%list_elem_of_fmap.
    unfold getProp. cbn [ownProps].
    rewrite !lookup_jsonMembers by apply NoDup_picked, NoDup_retained.
    by rewrite !lookup_picked by apply NoDup_retained.
Qed.


End Serialization.

(** Storing the outputs of a batch of two files the task has moved. *)
Lemma batch_elements_witness :
  exists docs w',
    _storeCachedResult Sample.batchProxy (JStr Sample.batchKey)
      [Sample.movedOut Sample.input; Sample.movedOut Sample.other]
      (Sample.before [Sample.input; Sample.other])
    = (Resolved tt, w')
    /\ cache w' !! ("default", Sample.batchKey) = Some (JsonText (JArr docs))
    /\ docs = map (fun out => toJSON (fileToObj out))
                  [Sample.movedOut Sample.input; Sample.movedOut Sample.other]
    /\ Forall (fun doc => getProp doc "originalPath" = JUndefined
                          /\ getProp doc "filePathChangedInsideTask" = JUndefined)
              docs.
Proof.
  apply (batch_elements_are_not_stamped Sample.batchProxy
           (Sample.before [Sample.input; Sample.other]) Sample.batchKey
           [Sample.movedOut Sample.input; Sample.movedOut Sample.other]).
  - reflexivity.
  - reflexivity.
  - vm_compute. discriminate.
Defined.

(** C4 fails as stated.  A batch of two files, both moved by the task to
    another path, is stored as two elements; each element has the path
    the task gave it, which is not the path of its input, and neither
    has an [originalPath] or a [filePathChangedInsideTask] member. *)
Lemma stored_batch_has_no_stamps :
  map (fun f => getProp f "path") [Sample.input; Sample.other]
  = [JStr "/work/a.txt"; JStr "/work/b.txt"]
  /\ map (fun doc => getProp doc "path") Sample.storedBatch
     = [JStr "/work/out.txt"; JStr "/work/out.txt"]
  /\ map (fun doc => getProp doc "originalPath") Sample.storedBatch
     = [JUndefined; JUndefined]
  /\ map (fun doc => getProp doc "filePathChangedInsideTask") Sample.storedBatch
     = [JUndefined; JUndefined].
Proof. vm_compute. repeat split; reflexivity. Qed.



(** * Further properties of the code *)

(** ** The execution bridge *)

Section Bridge.

Variable JSON_parse : string -> option jsval.

Lemma collect_batch fs e later acc :
  collect true (map Data fs ++ End e :: later) acc
  = Resolved (acc ++ collected fs ++ (if truthy e then [e] else [])).
Proof.
  revert acc. induction fs as [|f fs IH]; intros acc.
  - simpl. destruct (truthy e); by rewrite ?app_nil_r.
  - simpl. unfold collected in *. simpl. destruct (truthy f).
    + rewrite IH. by rewrite <- app_assoc.
    + apply IH.
Qed.

Lemma collect_single before f later acc :
  listening false before = true ->
  truthy f = true ->
  collect false (before ++ Data f :: later) acc = Resolved (acc ++ [f]).
Proof.
  intros Hl Hf. induction before as [|s before IH].
  - simpl. by rewrite Hf.
  - simpl in Hl. apply andb_true_iff in Hl as [Hs Hl].
    destruct s as [g| |]; try done. simpl in *.
    destruct (truthy g); [done|]. by apply IH.
Qed.

Lemma collect_pending m2m emitted acc :
  collect m2m emitted acc = Pending <-> listening m2m emitted = true.
Proof.
  revert acc. induction emitted as [|s emitted IH]; intros acc; [done|].
  destruct s as [f| |]; simpl; [|done..].
  destruct (truthy f), m2m; simpl; try apply IH. done.
Qed.

(** X1.  In many-to-many mode every input is written to the wrapped
    stream, then the stream is ended; the bridge resolves with the truthy
    files emitted before the end signal, in the order they were emitted,
    followed by the file the end signal carries if it carries one.  What
    the stream emits after its end is not looked at. *)
Theorem batch_outputs_in_emission_order p w stream fs e later :
  task p = Some stream ->
  manyToMany (opts p) = true ->
  stream (files w) = map Data fs ++ End e :: later ->
  _runProxiedTask p w
  = (Resolved (collected fs ++ (if truthy e then [e] else [])),
     World (cache w) (listeners w) (Some (default 0 (maxListeners w)))
           (files w) (trace w ++ map CallWrite (files w) ++ [CallEnd])).
Proof.
  intros Ht Hm Hs. rewrite (runProxiedTask_eq _ _ _ Ht).
  unfold taskCalls, taskInputs. rewrite Hm, Hs, collect_batch. done.
Qed.

(** X2.  In one-to-one mode only the first input is written and the
    stream is not ended; the bridge resolves with the first truthy file
    the stream emits, alone.  Whatever follows it, an error included, is
    not looked at. *)
Theorem single_settles_on_first_file p w stream before f later :
  task p = Some stream ->
  manyToMany (opts p) = false ->
  stream [first (files w)] = before ++ Data f :: later ->
  listening false before = true ->
  truthy f = true ->
  _runProxiedTask p w
  = (Resolved [f],
     World (cache w) (listeners w) (Some (default 0 (maxListeners w)))
           (files w) (trace w ++ [CallWrite (first (files w))])).
Proof.
  intros Ht Hm Hs Hl Hf. rewrite (runProxiedTask_eq _ _ _ Ht).
  unfold taskCalls, taskInputs. rewrite Hm, Hs, (collect_single _ _ _ _ Hl Hf).
  simpl. by rewrite ?app_nil_r.
Qed.

(** X3.  When the wrapped stream emits no error, no end and (in
    one-to-one mode) no truthy file, an invocation that runs the task
    never settles: there is no timeout.  The store is untouched and the
    three handlers stay subscribed, with the listener limit three above
    what it was. *)
Theorem silent_task_hangs p w c w1 stream :
  task p = Some stream ->
  _checkForCachedValue JSON_parse p w = (Resolved c, w1) ->
  usesCache (opts p) c (files w1) = false ->
  listening (manyToMany (opts p)) (stream (taskInputs p w1)) = true ->
  exists w',
    processFiles JSON_parse p w = (Pending, w')
    /\ cache w' = cache w
    /\ listeners w' = listeners w ++ bridgeListeners
    /\ maxListeners w' = Some (default 0 (maxListeners w) + 3).
Proof.
  intros Ht Hc Hu Hl.
  rewrite (processFiles_runs _ _ _ _ _ Hc Hu).
  unfold runAndCache, _runProxiedTaskAndCache, bind.
  rewrite (runProxiedTask_eq _ _ _ Ht).
  apply (collect_pending _ _ []) in Hl. rewrite Hl.
  destruct (checkForCachedValue_frame _ _ _ _ _ Hc)
    as (Hcache & Hlis & Hmax & _).
  eexists. split; [done|]. simpl. by rewrite Hcache, Hlis, Hmax.
Qed.

(** X4.  Whenever the wrapped stream emits something that settles the
    bridge, by success or by error, the bridge leaves the stream with the
    listeners it had and with the limit it had (a limit that was not set
    is left at 0), and touches neither the store nor the files. *)
Theorem settled_bridge_restores_emitter p w stream :
  task p = Some stream ->
  listening (manyToMany (opts p)) (stream (taskInputs p w)) = false ->
  (_runProxiedTask p w).1 <> Pending
  /\ listeners (_runProxiedTask p w).2 = listeners w
  /\ maxListeners (_runProxiedTask p w).2 = Some (default 0 (maxListeners w))
  /\ cache (_runProxiedTask p w).2 = cache w
  /\ files (_runProxiedTask p w).2 = files w.
Proof.
  intros Ht Hl. rewrite (runProxiedTask_eq _ _ _ Ht).
  destruct (collect _ _ _) as [outs|e|] eqn:Hcol; [done..|].
  apply collect_pending in Hcol. congruence.
Qed.

End Bridge.

Lemma batch_outputs_witness :
  _runProxiedTask Sample.shoutBatchProxy
    (Sample.before [Sample.input; Sample.other])
  = (Resolved (collected [Sample.shouted Sample.input; Sample.shouted Sample.other]
               ++ (if truthy JUndefined then [JUndefined] else [])),
     World ∅ [] (Some 0) [Sample.input; Sample.other]
       ([] ++ map CallWrite [Sample.input; Sample.other] ++ [CallEnd])).
Proof.
  apply (batch_outputs_in_emission_order Sample.shoutBatchProxy
           (Sample.before [Sample.input; Sample.other]) Sample.shout
           [Sample.shouted Sample.input; Sample.shouted Sample.other]
           JUndefined []); reflexivity.
Defined.

(** The first file settles the bridge; the error that follows is lost. *)
Lemma single_settles_witness :
  _runProxiedTask Sample.hastyProxy (Sample.before [Sample.input])
  = (Resolved [Sample.input],
     World ∅ [] (Some 0) [Sample.input] ([] ++ [CallWrite Sample.input])).
Proof.
  apply (single_settles_on_first_file Sample.hastyProxy
           (Sample.before [Sample.input]) Sample.failing []
           Sample.input [Error (JStr "boom"); End JUndefined]); reflexivity.
Defined.

Lemma silent_task_witness :
  exists w',
    processFiles Sample.noParse Sample.silentProxy (Sample.before [Sample.input])
    = (Pending, w')
    /\ cache w' = ∅
    /\ listeners w' = [] ++ bridgeListeners
    /\ maxListeners w' = Some (0 + 3).
Proof.
  apply (silent_task_hangs Sample.noParse Sample.silentProxy
           (Sample.before [Sample.input])
           (Sample.found Sample.silentProxy (Sample.before [Sample.input]))
           (Sample.afterLookup Sample.silentProxy (Sample.before [Sample.input]))
           Sample.silent); vm_compute; reflexivity.
Defined.

Lemma settled_bridge_witness :
  (_runProxiedTask Sample.failingProxy
     (Sample.before [Sample.input; Sample.other])).1 <> Pending
  /\ listeners (_runProxiedTask Sample.failingProxy
                  (Sample.before [Sample.input; Sample.other])).2 = []
  /\ maxListeners (_runProxiedTask Sample.failingProxy
                     (Sample.before [Sample.input; Sample.other])).2 = Some 0
  /\ cache (_runProxiedTask Sample.failingProxy
              (Sample.before [Sample.input; Sample.other])).2 = ∅
  /\ files (_runProxiedTask Sample.failingProxy
              (Sample.before [Sample.input; Sample.other])).2
     = [Sample.input; Sample.other].
Proof.
  apply (settled_bridge_restores_emitter Sample.failingProxy
           (Sample.before [Sample.input; Sample.other]) Sample.failing);
    reflexivity.
Defined.

(** ** The store as the proxy uses it *)

Section Store.

Variable JSON_parse : string -> option jsval.

Lemma makeHash_truthy bs : truthy (JStr (makeHash bs)) = true.
Proof.
  destruct (makeHash_hex bs) as [Hlen _].
  by destruct (makeHash bs).
Qed.

Lemma runProxiedTask_frame p w :
  cache (_runProxiedTask p w).2 = cache w
  /\ files (_runProxiedTask p w).2 = files w.
Proof.
  unfold _runProxiedTask. destruct (task p) as [stream|]; [|done].
  by destruct (collect _ _ _).
Qed.

(** The store step writes one entry, under the name and the key, when it
    resolves with a key; otherwise it writes nothing. *)
Lemma storeCachedResult_cache p k outs w :
  match (_storeCachedResult p k outs w).1 with
  | Resolved _ =>
      (truthy k = false /\ cache (_storeCachedResult p k outs w).2 = cache w)
      \/ exists h t, k = JStr h
                     /\ cache (_storeCachedResult p k outs w).2
                        = <[(name (opts p), h) := t]> (cache w)
  | _ => cache (_storeCachedResult p k outs w).2 = cache w
  end.
Proof.
  unfold _storeCachedResult. destruct (truthy k) eqn:Hk; simpl; [|by left].
  unfold bind. pose proof (getValueFromResult_world p outs w) as Hw.
  destruct (_getValueFromResult p outs w) as [[v|e|] w0]; simpl in Hw; subst w0;
    [|done..].
  destruct (storedText p v) as [val|e]; [|done].
  unfold addCached. destruct k; try done. simpl. right. by eexists _, _.
Qed.

Lemma runAndCache_cache p k w :
  match (runAndCache p k w).1 with
  | Resolved _ =>
      cache (runAndCache p k w).2 = cache w
      \/ exists h t, k = JStr h
                     /\ cache (runAndCache p k w).2
                        = <[(name (opts p), h) := t]> (cache w)
  | _ => cache (runAndCache p k w).2 = cache w
  end.
Proof.
  unfold runAndCache, _runProxiedTaskAndCache, bind.
  destruct (runProxiedTask_frame p w) as [Hc _].
  destruct (_runProxiedTask p w) as [[outs|e|] w0]; simpl in Hc; [|done..].
  pose proof (storeCachedResult_cache p k outs w0) as Hstore.
  destruct (success (opts p)) as [|f|f|v]; simpl.
  - destruct (_storeCachedResult p k outs w0) as [[[]|e|] w']; simpl in *;
      rewrite <- ?Hc; try done.
    destruct Hstore as [[_ H]|H]; [by left|by right].
  - destruct (f _ _) as [r|e]; [|done]. destruct (truthy r); [|simpl; by left].
    destruct (_storeCachedResult p k outs w0) as [[[]|e|] w']; simpl in *;
      rewrite <- ?Hc; try done.
    destruct Hstore as [[_ H]|H]; [by left|by right].
  - destruct (_storeCachedResult p k outs w0) as [[[]|e|] w']; simpl in *;
      rewrite <- ?Hc; try done.
    destruct Hstore as [[_ H]|H]; [by left|by right].
  - destruct (strictEq v (JBool true)); [|done].
    destruct (_storeCachedResult p k outs w0) as [[[]|e|] w']; simpl in *;
      rewrite <- ?Hc; try done.
    destruct Hstore as [[_ H]|H]; [by left|by right].
Qed.

Lemma processFiles_after_check p w r w1 :
  _checkForCachedValue JSON_parse p w = (r, w1) ->
  processFiles JSON_parse p w
  = match r with
    | Resolved c =>
        (let* inputs := readFiles in
         if truthy (Cached.value c) then
           if manyToMany (opts p) then ret (Cached.value c)
           else if applicable (Cached.value c) (first inputs)
           then extendOntoFile (Cached.value c)
           else runAndCache p (Cached.key c)
         else runAndCache p (Cached.key c)) w1
    | Rejected e => (Rejected e, w1)
    | Pending => (Pending, w1)
    end.
Proof.
  intros Hc. unfold processFiles. unfold bind at 1. rewrite Hc. by destruct r.
Qed.

(** X5.  An invocation never removes an entry and writes at most one: the
    one under the name of its options and its own hashed key.  It writes
    it only on the way to resolving; an invocation that rejects or never
    settles leaves the store exactly as it was. *)
Theorem invocation_writes_its_own_entry_only p w :
  match (processFiles JSON_parse p w).1 with
  | Resolved _ =>
      cache (processFiles JSON_parse p w).2 = cache w
      \/ exists c h t,
           (_checkForCachedValue JSON_parse p w).1 = Resolved c
           /\ Cached.key c = JStr h
           /\ cache (processFiles JSON_parse p w).2
              = <[(name (opts p), h) := t]> (cache w)
  | _ => cache (processFiles JSON_parse p w).2 = cache w
  end.
Proof.
  destruct (_checkForCachedValue JSON_parse p w) as [[c|e|] w1] eqn:Hc;
    destruct (checkForCachedValue_frame _ _ _ _ _ Hc) as (Hcache & _);
    rewrite (processFiles_after_check _ _ _ _ Hc); [|done..].
  pose proof (runAndCache_cache p (Cached.key c) w1) as Hrun.
  unfold bind, readFiles.
  destruct (truthy (Cached.value c)).
  - destruct (manyToMany (opts p)); [simpl; by left|].
    destruct (applicable _ _).
    + unfold extendOntoFile. destruct (first (files w1)); simpl; try done.
      by left.
    + destruct (runAndCache p (Cached.key c) w1) as [[r|e|] w']; simpl in *;
        rewrite <- ?Hcache; try done.
      destruct Hrun as [H|(h & t & Hk & H)]; [by left|right]. by exists c, h, t.
  - destruct (runAndCache p (Cached.key c) w1) as [[r|e|] w']; simpl in *;
      rewrite <- ?Hcache; try done.
    destruct Hrun as [H|(h & t & Hk & H)]; [by left|right]. by exists c, h, t.
Qed.

Lemma getFileKey_string p w s :
  key (opts p) (manyToMany (opts p)) (keyArgument p w) = Resolved (JStr s) ->
  _getFileKey p w
  = (Resolved (if String.eqb s "" then JStr ""
               else JStr (makeHash (bytesOfString s))),
     logged [CallKey (keyArgument p w)] w).
Proof.
  intros Hk. unfold _getFileKey. fold (keyArgument p w). rewrite Hk.
  by destruct s.
Qed.

(** A key that is a string and has no entry leads to a miss. *)
Lemma checkForCachedValue_miss p w s :
  key (opts p) (manyToMany (opts p)) (keyArgument p w) = Resolved (JStr s) ->
  cache w !! (name (opts p), makeHash (bytesOfString s)) = None ->
  exists k pre,
    _checkForCachedValue JSON_parse p w
    = (Resolved (Cached.Make k JNull), logged pre w)
    /\ forallb isLookup pre = true.
Proof.
  intros Hk Hnone. unfold _checkForCachedValue, bind.
  rewrite (getFileKey_string _ _ _ Hk).
  destruct (String.eqb_spec s "") as [->|Hs].
  - by exists (JStr ""), [CallKey (keyArgument p w)].
  - rewrite makeHash_truthy. cbn [negb]. unfold getCached.
    change (cache (logged [CallKey (keyArgument p w)] w)) with (cache w).
    rewrite Hnone.
    exists (JStr (makeHash (bytesOfString s))),
      [CallKey (keyArgument p w);
       CallGetCached (name (opts p)) (makeHash (bytesOfString s))].
    split; [|done]. unfold ret, logged; simpl. by rewrite <- app_assoc.
Qed.

(** After a miss the task is run. *)
Lemma miss_runs_task p w s stream :
  task p = Some stream ->
  key (opts p) (manyToMany (opts p)) (keyArgument p w) = Resolved (JStr s) ->
  cache w !! (name (opts p), makeHash (bytesOfString s)) = None ->
  exists pre more,
    during w (processFiles JSON_parse p w).2 = pre ++ taskCalls p w ++ more
    /\ forallb isLookup pre = true.
Proof.
  intros Ht Hk Hnone.
  destruct (checkForCachedValue_miss p w s Hk Hnone) as (k & pre & Hc & Hpre).
  rewrite (processFiles_runs _ _ _ _ _ Hc) by done.
  destruct (runAndCache_trace p k (logged pre w) stream Ht) as [more Hmore].
  exists pre, more. split; [|done]. apply during_app.
  transitivity (trace (logged pre w) ++ taskCalls p (logged pre w) ++ more);
    [exact Hmore|].
  unfold logged; simpl. by rewrite <- app_assoc.
Qed.

(** X6.  Invalidation: with a key that is a non-empty string,
    [removeCachedResult] resolves and deletes the entry under the name and
    the hashed key, and nothing else; the next invocation on the same
    files looks the key up, finds nothing and runs the task. *)
Theorem invalidation_forces_rerun p w stream s :
  task p = Some stream ->
  key (opts p) (manyToMany (opts p)) (keyArgument p w) = Resolved (JStr s) ->
  s <> "" ->
  exists w1,
    removeCachedResult p w = (Resolved tt, w1)
    /\ cache w1 = delete (name (opts p), makeHash (bytesOfString s)) (cache w)
    /\ exists pre more,
         during w1 (processFiles JSON_parse p w1).2
         = pre ++ taskCalls p w ++ more
         /\ forallb isLookup pre = true.
Proof.
  intros Ht Hk Hs. unfold removeCachedResult, bind.
  rewrite (getFileKey_string _ _ _ Hk).
  destruct (String.eqb_spec s "") as [|_]; [done|]. unfold removeCached.
  eexists. split; [done|]. split; [done|].
  set (w1 := logged _ _).
  apply (miss_runs_task p w1 s stream Ht); [done|].
  simpl. apply lookup_delete_eq.
Qed.

(** X7.  When the key function rejects, both entry points reject with its
    error right after calling it: the store is not consulted, the task
    is not run, nothing is written or removed. *)
Theorem key_failure_ends_invocation p w e :
  key (opts p) (manyToMany (opts p)) (keyArgument p w) = Rejected e ->
  processFiles JSON_parse p w
  = (Rejected e, logged [CallKey (keyArgument p w)] w)
  /\ removeCachedResult p w
     = (Rejected e, logged [CallKey (keyArgument p w)] w).
Proof.
  intros Hk.
  unfold processFiles, removeCachedResult, _checkForCachedValue, bind, _getFileKey.
  fold (keyArgument p w). by rewrite Hk.
Qed.


End Store.

Lemma invalidation_witness :
  exists w1,
    removeCachedResult Sample.inputProxy (Sample.again Sample.afterShout)
    = (Resolved tt, w1)
    /\ cache w1
       = delete (name (opts Sample.inputProxy),
                 makeHash (bytesOfString Sample.sampleKeyText))
           (cache (Sample.again Sample.afterShout))
    /\ exists pre more,
         during w1 (processFiles Sample.noParse Sample.inputProxy w1).2
         = pre ++ taskCalls Sample.inputProxy (Sample.again Sample.afterShout)
           ++ more
         /\ forallb isLookup pre = true.
Proof.
  apply (invalidation_forces_rerun Sample.noParse Sample.inputProxy
           (Sample.again Sample.afterShout) Sample.shout Sample.sampleKeyText).
  - reflexivity.
  - reflexivity.
  - vm_compute. discriminate.
Defined.

Lemma key_failure_witness :
  processFiles Sample.noParse Sample.rejectingKeyProxy
    (Sample.before [Sample.input])
  = (Rejected (Raised (JStr "no key")),
     logged [CallKey (keyArgument Sample.rejectingKeyProxy
                        (Sample.before [Sample.input]))]
       (Sample.before [Sample.input]))
  /\ removeCachedResult Sample.rejectingKeyProxy (Sample.before [Sample.input])
     = (Rejected (Raised (JStr "no key")),
        logged [CallKey (keyArgument Sample.rejectingKeyProxy
                           (Sample.before [Sample.input]))]
          (Sample.before [Sample.input])).
Proof.
  apply (key_failure_ends_invocation Sample.noParse Sample.rejectingKeyProxy
           (Sample.before [Sample.input]) (Raised (JStr "no key"))).
  reflexivity.
Defined.


(** ** What is stored and how it is read back *)

Section Formats.

Variable File : jsval -> props.
Variable JSON_parse : string -> option jsval.

Lemma first_map (g : jsval -> jsval) fs :
  g JUndefined = JUndefined -> first (map g fs) = g (first fs).
Proof. intros Hg. by destruct fs. Qed.

(** X9.  In one-to-one mode with the default extraction the stored
    object records the path of the input the proxy was built for as
    [originalPath], and has [filePathChangedInsideTask] set to [true]
    exactly when the path of the output is not that path; otherwise the
    member is absent. *)
Theorem stored_value_records_input_path t fs o w out :
  exists p doc,
    (newTaskProxy t fs o w).1 = Resolved p
    /\ storedText p (fileToObj out) = Returned (JsonText doc)
    /\ getProp doc "originalPath" = toJSON (getProp (first fs) "path")
    /\ getProp doc "filePathChangedInsideTask"
       = if strictEq (getProp out "path") (getProp (first fs) "path")
         then JUndefined else JBool true.
Proof.
  eexists _, _. split; [done|]. rewrite fileToObj_members.
  cbn [storedText originalPaths]. split; [done|].
  rewrite (first_map (fun f => getProp f "path")) by done.
  rewrite toJSON_obj.
  set (picked := pickedOf (ownProps out) retainedFields).
  assert (NoDup (keys picked)) as Hnd by apply NoDup_picked, NoDup_retained.
  assert (getProp (JObj picked) "path" = getProp out "path") as Hpath.
  { unfold getProp, picked. cbn [ownProps].
    rewrite lookup_picked by apply NoDup_retained.
    rewrite decide_True; [done|]. unfold retainedFields. set_solver. }
  assert (lookup "filePathChangedInsideTask" picked = None) as Hflag.
  { unfold picked. by rewrite lookup_picked by apply NoDup_retained. }
  unfold stamp. rewrite Hpath.
  destruct (strictEq (getProp out "path") (getProp (first fs) "path")); simpl.
  - rewrite !getProp_jsonMembers by (by apply NoDup_setProp).
    unfold getProp; simpl. rewrite !lookup_setProp. simpl. by rewrite Hflag.
  - rewrite !getProp_jsonMembers by (by do 2 apply NoDup_setProp).
    unfold getProp; simpl. rewrite !lookup_setProp. simpl. done.
Qed.

(** X10.  The two modes share their keys but not their formats.  An entry
    stored by a one-to-one invocation with the default extraction is an
    object; a many-to-many invocation with the default restore that
    computes the same key under the same name calls [map] on it: it
    rejects with a type error after the lookup, and the task is not run. *)
Theorem one_to_one_entry_breaks_batch_lookup p1 p2 w outs fs s :
  manyToMany (opts p1) = false ->
  value (opts p1) = ValueFn defaultValue ->
  manyToMany (opts p2) = true ->
  restore (opts p2) = Some (defaultRestore File) ->
  name (opts p2) = name (opts p1) ->
  key (opts p2) true (JArr fs) = Resolved (JStr s) ->
  s <> "" ->
  (_storeCachedResult p1 (JStr (makeHash (bytesOfString s))) outs w).1
  = Resolved tt
  /\ processFiles JSON_parse p2
       (withFiles fs
          (_storeCachedResult p1 (JStr (makeHash (bytesOfString s))) outs w).2)
     = (Rejected (TypeError "value.map is not a function"),
        logged [CallKey (JArr fs);
                CallGetCached (name (opts p2)) (makeHash (bytesOfString s))]
          (withFiles fs
             (_storeCachedResult p1 (JStr (makeHash (bytesOfString s))) outs
                w).2)).
Proof.
  intros Hm1 Hv1 Hm2 Hr2 Hn Hk Hs.
  unfold _storeCachedResult, _getValueFromResult, bind.
  rewrite makeHash_truthy, Hv1, Hm1. cbn [negb defaultValue].
  rewrite fileToObj_members. cbn [storedText]. rewrite toJSON_obj.
  unfold addCached. split; [done|].
  set (w1 := withFiles fs _).
  assert (key (opts p2) (manyToMany (opts p2)) (keyArgument p2 w1)
          = Resolved (JStr s)) as Hk2.
  { unfold keyArgument. by rewrite Hm2. }
  assert (keyArgument p2 w1 = JArr fs) as Harg
    by (unfold keyArgument; by rewrite Hm2).
  unfold processFiles, _checkForCachedValue, bind.
  rewrite (getFileKey_string _ _ _ Hk2), Harg.
  destruct (String.eqb_spec s "") as [|_]; [done|].
  rewrite makeHash_truthy. cbn [negb]. unfold getCached.
  change (cache (logged [CallKey (JArr fs)] w1)) with (cache w1).
  unfold w1 at 1. cbn [cache withFiles logged withCache snd].
  rewrite Hn, lookup_insert_eq, Hr2, Hm2. cbn [parseContents defaultRestore].
  unfold reject, logged; simpl. by rewrite <- app_assoc.
Qed.

(** X11.  A value that is a string is stored as it is, without stamps.
    Read back by options that do not restore, a string that is not JSON
    comes back wrapped as [{cached: string}]. *)
Theorem string_value_comes_back_wrapped p w s outs getValue v :
  value (opts p) = ValueFn getValue ->
  getValue (manyToMany (opts p))
    (if manyToMany (opts p) then JArr outs else first outs) = Resolved (JStr v) ->
  restore (opts p) = None ->
  key (opts p) (manyToMany (opts p)) (keyArgument p w) = Resolved (JStr s) ->
  s <> "" ->
  JSON_parse v = None ->
  exists w1,
    _storeCachedResult p (JStr (makeHash (bytesOfString s))) outs w
    = (Resolved tt, w1)
    /\ cache w1 !! (name (opts p), makeHash (bytesOfString s))
       = Some (Verbatim v)
    /\ (_checkForCachedValue JSON_parse p w1).1
       = Resolved (Cached.Make (JStr (makeHash (bytesOfString s)))
                     (JObj [("cached", JStr v)])).
Proof.
  intros Hv Hg Hr Hk Hs Hparse.
  unfold _storeCachedResult, _getValueFromResult, bind.
  rewrite makeHash_truthy, Hv. cbn [negb]. rewrite Hg. cbn [storedText].
  unfold addCached. eexists. split; [done|].
  cbn [cache withFiles logged withCache]. rewrite lookup_insert_eq.
  split; [done|].
  set (w1 := logged _ _).
  assert (key (opts p) (manyToMany (opts p)) (keyArgument p w1)
          = Resolved (JStr s)) as Hk1 by exact Hk.
  unfold _checkForCachedValue, bind. rewrite (getFileKey_string _ _ _ Hk1).
  destruct (String.eqb_spec s "") as [|_]; [done|].
  rewrite makeHash_truthy. cbn [negb]. unfold getCached.
  change (cache (logged [CallKey (keyArgument p w1)] w1)) with (cache w1).
  unfold w1 at 1. cbn [cache withFiles logged withCache].
  rewrite lookup_insert_eq, Hr. cbn [parseContents]. by rewrite Hparse.
Qed.

End Formats.

Lemma mode_mixup_witness :
  (_storeCachedResult Sample.inputProxy
     (JStr (makeHash (bytesOfString Sample.sampleKeyText)))
     [Sample.shouted Sample.input] (Sample.before [Sample.input])).1
  = Resolved tt
  /\ processFiles Sample.noParse Sample.batchOfOne
       (withFiles [Sample.input]
          (_storeCachedResult Sample.inputProxy
             (JStr (makeHash (bytesOfString Sample.sampleKeyText)))
             [Sample.shouted Sample.input] (Sample.before [Sample.input])).2)
     = (Rejected (TypeError "value.map is not a function"),
        logged [CallKey (JArr [Sample.input]);
                CallGetCached (name (opts Sample.batchOfOne))
                  (makeHash (bytesOfString Sample.sampleKeyText))]
          (withFiles [Sample.input]
             (_storeCachedResult Sample.inputProxy
                (JStr (makeHash (bytesOfString Sample.sampleKeyText)))
                [Sample.shouted Sample.input] (Sample.before [Sample.input])).2)).
Proof.
  apply (one_to_one_entry_breaks_batch_lookup Sample.vinylFile Sample.noParse
           Sample.inputProxy Sample.batchOfOne (Sample.before [Sample.input])
           [Sample.shouted Sample.input] [Sample.input] Sample.sampleKeyText);
    try reflexivity.
  vm_compute. discriminate.
Defined.

Lemma string_value_witness :
  exists w1,
    _storeCachedResult Sample.textProxy
      (JStr (makeHash (bytesOfString Sample.sampleKeyText)))
      [Sample.shouted Sample.input] (Sample.before [Sample.input])
    = (Resolved tt, w1)
    /\ cache w1 !! (name (opts Sample.textProxy),
                    makeHash (bytesOfString Sample.sampleKeyText))
       = Some (Verbatim "plain text")
    /\ (_checkForCachedValue Sample.noParse Sample.textProxy w1).1
       = Resolved (Cached.Make
                     (JStr (makeHash (bytesOfString Sample.sampleKeyText)))
                     (JObj [("cached", JStr "plain text")])).
Proof.
  apply (string_value_comes_back_wrapped Sample.noParse Sample.textProxy
           (Sample.before [Sample.input]) Sample.sampleKeyText
           [Sample.shouted Sample.input]
           (fun _ _ => Resolved (JStr "plain text")) "plain text");
    try reflexivity.
  vm_compute. discriminate.
Defined.

(** ** Base64 text *)

Section Base64.

Lemma byteZ_range b : 0 <= byteZ b < 256.
Proof. unfold byteZ. pose proof (Byte.to_N_bounded b). lia. Qed.

Lemma zByte_byteZ b : zByte (byteZ b) = b.
Proof. by destruct b. Qed.

Lemma zByte_mod n : zByte (n mod 256) = zByte n.
Proof. unfold zByte. by rewrite Z.mod_mod. Qed.

Lemma zByte_of n b : n mod 256 = byteZ b -> zByte n = b.
Proof. intros H. by rewrite <- zByte_mod, H, zByte_byteZ. Qed.

(** Every character of the alphabet has its index as value, and none is
    the padding character. *)
Lemma b64alphabet_index (i : nat) :
  (i < 64)%nat ->
  b64value (nth i b64alphabet "A"%char) = Some (Z.of_nat i)
  /\ Ascii.eqb (nth i b64alphabet "A"%char) "="%char = false.
Proof.
  intros Hi. do 64 (destruct i as [|i]; [by vm_compute|]). lia.
Qed.

Lemma b64value_b64char n :
  b64value (b64char n) = Some (n mod 64)
  /\ Ascii.eqb (b64char n) "="%char = false.
Proof.
  unfold b64char.
  assert (0 <= n mod 64 < 64) as Hr by (apply Z.mod_pos_bound; lia).
  destruct (b64alphabet_index (Z.to_nat (n mod 64))) as [Hv He]; [lia|].
  rewrite Hv, He. by rewrite Z2Nat.id by lia.
Qed.

Lemma sextets_char n rest :
  sextets (String (b64char n) rest) = n mod 64 :: sextets rest.
Proof.
  destruct (b64value_b64char n) as [Hv He]. simpl. by rewrite He, Hv.
Qed.

Lemma unbase64_three a b c rest :
  unbase64 (base64 (a :: b :: c :: rest)) = a :: b :: c :: unbase64 (base64 rest).
Proof.
  unfold unbase64. cbn [base64]. rewrite !sextets_char. cbn [unsextets].
  pose proof (byteZ_range a). pose proof (byteZ_range b).
  pose proof (byteZ_range c).
  set (n := byteZ a * 65536 + byteZ b * 256 + byteZ c) in *.
  assert ((n / 262144) mod 64 * 262144 + (n / 4096) mod 64 * 4096
          + (n / 64) mod 64 * 64 + n mod 64 = n) as ->.
  { unfold n. Z.to_euclidean_division_equations. lia. }
  f_equal; [|f_equal; [|f_equal]]; apply zByte_of; unfold n;
    Z.to_euclidean_division_equations; lia.
Qed.

(** Decoding the base64 text of a buffer gives the buffer. *)
Lemma unbase64_base64 bs : unbase64 (base64 bs) = bs.
Proof.
  assert (forall n bs, (length bs <= n)%nat -> unbase64 (base64 bs) = bs) as H;
    [|by apply (H (length bs))].
  clear bs. induction n as [|n IH]; intros bs Hn.
  { destruct bs; [done|simpl in Hn; lia]. }
  destruct bs as [|a [|b [|c rest]]]; [done| | |].
  - unfold unbase64. cbn [base64]. rewrite !sextets_char. simpl.
    pose proof (byteZ_range a). f_equal. apply zByte_of.
    Z.to_euclidean_division_equations. lia.
  - unfold unbase64. cbn [base64]. rewrite !sextets_char. simpl.
    pose proof (byteZ_range a). pose proof (byteZ_range b).
    f_equal; [|f_equal]; apply zByte_of;
      Z.to_euclidean_division_equations; lia.
  - rewrite unbase64_three. rewrite IH; [done|]. simpl in Hn. lia.
Qed.

(** Base64 text is written three bytes at a time: after a whole number
    of triples the text of what follows is simply appended. *)
Lemma base64_app bs1 bs2 :
  (length bs1 mod 3 = 0)%nat ->
  base64 (bs1 ++ bs2) = base64 bs1 +:+ base64 bs2.
Proof.
  assert (forall n bs1, (length bs1 <= n)%nat -> (length bs1 mod 3 = 0)%nat ->
            base64 (bs1 ++ bs2) = base64 bs1 +:+ base64 bs2) as H;
    [|by apply (H (length bs1))].
  clear bs1. induction n as [|n IH]; intros bs1 Hn Hm.
  { destruct bs1; [done|simpl in Hn; lia]. }
  destruct bs1 as [|a [|b [|c rest]]]; [done|done|done|].
  cbn [app base64 String.append]. rewrite IH; [done|simpl in Hn; lia|].
  change (length (a :: b :: c :: rest)) with (3 + length rest)%nat in Hm.
  rewrite Nat.Div0.add_mod in Hm. rewrite Nat.Div0.mod_same in Hm.
  rewrite Nat.add_0_l, Nat.Div0.mod_mod in Hm. done.
Qed.

End Base64.

(** ** Contents read back *)

Section Contents.

Variable VERSION : string.
Variable File : jsval -> props.

Lemma pretty_N_go_digits x s :
  digitsOnly s = true -> digitsOnly (pretty_N_go x s) = true.
Proof.
  revert s. induction (N.lt_wf_0 x) as [x _ IH]; intros s Hs.
  assert (x = 0 \/ 0 < x)%N as [->|Hx] by lia.
  - by rewrite pretty_N_go_0.
  - rewrite pretty_N_go_step by done. apply IH.
    + by apply N.div_lt.
    + simpl. rewrite Hs. unfold pretty_N_char. by repeat case_match.
Qed.

Lemma pretty_nat_digits (i : nat) : digitsOnly (pretty i) = true.
Proof.
  unfold pretty, pretty_nat, pretty, pretty_N.
  destruct (decide _); [done|]. by apply pretty_N_go_digits.
Qed.

(** A member name that is not a number is no index of an array. *)
Lemma lookup_indexed_name k l :
  digitsOnly k = false -> lookup k (indexed l) = None.
Proof.
  intros Hk. unfold indexed.
  assert (forall (idx : nat -> string),
            (forall i, digitsOnly (idx i) = true) ->
            lookup k (imap (fun i v => (idx i, v)) l) = None) as H.
  { induction l as [|x l IH]; intros idx Hidx; [done|]. simpl.
    destruct (String.eqb_spec k (idx 0%nat)) as [->|_].
    - by rewrite Hidx in Hk.
    - apply (IH (fun i => idx (S i))). intros i. apply Hidx. }
  apply H. apply pretty_nat_digits.
Qed.

Lemma setProp_twice ps k v v' :
  setProp (setProp ps k v) k v' = setProp ps k v'.
Proof.
  induction ps as [|[k0 v0] ps IH]; simpl.
  - by rewrite String.eqb_refl.
  - destruct (String.eqb_spec k k0) as [->|Hne]; simpl.
    + by rewrite String.eqb_refl.
    + destruct (String.eqb_spec k k0); [done|]. by rewrite IH.
Qed.

Lemma getProp_setProp ps k v : getProp (JObj (setProp ps k v)) k = v.
Proof. unfold getProp; simpl. by rewrite lookup_setProp, String.eqb_refl. Qed.


Lemma append_assoc (s t u : string) : (s +:+ t) +:+ u = s +:+ t +:+ u.
Proof.
  induction s as [|c s IH]; [done|].
  change (String c ((s +:+ t) +:+ u) = String c (s +:+ t +:+ u)).
  by rewrite IH.
Qed.

(** X13.  The default key does not see where one file of a batch ends
    and the next begins: when the first of two files holds a whole number
    of byte triples, the batch of the two has the key of the single file
    that holds the bytes of both. *)
Theorem batch_boundaries_do_not_enter_key p w w' f1 f2 f bs1 bs2 :
  key (opts p) = defaultKey VERSION ->
  manyToMany (opts p) = true ->
  files w = [f1; f2] ->
  files w' = [f] ->
  getProp f1 "contents" = JBuffer bs1 ->
  getProp f2 "contents" = JBuffer bs2 ->
  getProp f "contents" = JBuffer (bs1 ++ bs2) ->
  (length bs1 mod 3 = 0)%nat ->
  (_getFileKey p w).1 = (_getFileKey p w').1.
Proof.
  intros Hkey Hm Hw Hw' H1 H2 Hf Hlen.
  unfold _getFileKey. rewrite Hkey, Hm, Hw, Hw'.
  unfold defaultKey. cbn [joinContents]. unfold contentsBase64.
  rewrite H1, H2, Hf, (base64_app _ _ Hlen).
  rewrite append_assoc. by destruct (negb _).
Qed.

End Contents.

Lemma batch_boundaries_witness :
  (_getFileKey Sample.batchProxy (Sample.before [Sample.input; Sample.other])).1
  = (_getFileKey Sample.batchProxy (Sample.before [Sample.joined])).1.
Proof.
  apply (batch_boundaries_do_not_enter_key Sample.version Sample.batchProxy
           (Sample.before [Sample.input; Sample.other])
           (Sample.before [Sample.joined])
           Sample.input Sample.other Sample.joined
           (bytesOfString "abc") (bytesOfString "xyz")); reflexivity.
Defined.

(** ** The two transforms *)

Section Transforms.

Variable VERSION : string.
Variable File : jsval -> props.
Variable isStream : jsval -> bool.
Variable JSON_parse : string -> option jsval.

(** In many-to-many mode the transform only sorts what arrives. *)
Lemma feed_batch work o fs s :
  manyToMany o = true ->
  inMemory isStream fs = true ->
  feed (transformer_of isStream work o) fs s
  = Pipe (inputFiles s ++ held fs) (pushed s ++ forwarded fs) (outside s).
Proof.
  intros Hm. revert s. unfold feed, held, forwarded.
  induction fs as [|f fs IH]; intros s Hfs.
  - destruct s. simpl. by rewrite !app_nil_r.
  - cbn [inMemory forallb] in Hfs. apply andb_true_iff in Hfs as [Hf Hfs].
    cbn [fold_left List.filter transform transformer_of].
    rewrite IH by done. rewrite Hm.
    destruct (isNull f) eqn:Hn; cbn [negb].
    + cbn [snd inputFiles pushed outside]. by rewrite <- app_assoc.
    + simpl in Hf. apply negb_true_iff in Hf. rewrite Hf.
      cbn [snd inputFiles pushed outside]. by rewrite <- app_assoc.
Qed.

(** X14.  In many-to-many mode the caching transform does nothing in the
    outside world while files arrive: files without contents are pushed
    at once, the others are held back in arrival order.  [flush] then runs
    one invocation on all held files together; its outputs are pushed
    after the files that were forwarded, its rejection is handed to the
    callback as a plugin error, and the callback is not called when it
    never settles or resolves with something that is no array. *)
Theorem batch_is_one_invocation stream cacheable given tr fs w :
  cacheTask VERSION File isStream JSON_parse (Some stream) cacheable given
  = Returned tr ->
  manyToMany (resolveOptions VERSION File cacheable given) = true ->
  inMemory isStream fs = true ->
  feed tr fs (Pipe [] [] w) = Pipe (held fs) (forwarded fs) w
  /\ flush tr (feed tr fs (Pipe [] [] w))
     = match invocation JSON_parse (Some stream)
               (resolveOptions VERSION File cacheable given) (held fs) w with
       | (Resolved (JArr outputFiles), w') =>
           (Done, Pipe (held fs) (forwarded fs ++ outputFiles) w')
       | (Rejected err, w') =>
           (Failed (PluginError "gulp-cache" err),
            Pipe (held fs) (forwarded fs) w')
       | (_, w') => (NotCalled, Pipe (held fs) (forwarded fs) w')
       end.
Proof.
  intros Htr Hm Hfs. unfold cacheTask in Htr. injection Htr as <-.
  rewrite (feed_batch _ _ _ _ Hm Hfs). split; [done|].
  cbn [flush transformer_of]. rewrite Hm. unfold runProxy, invocation.
  cbn [inputFiles pushed outside app].
  by destruct (bind _ _ w) as [[[]|e|] w'].
Qed.

(** X15.  In one-to-one mode the clearing transform, given a file in
    memory whose key is a non-empty string, removes the entry under the
    name of the options and the hashed key, touches no other entry, and
    pushes the file downstream unchanged. *)
Theorem clear_removes_entry_and_forwards given file s k :
  manyToMany (clearOptions VERSION File given) = false ->
  isNull file = false ->
  isStream file = false ->
  key (clearOptions VERSION File given) false file = Resolved (JStr k) ->
  k <> "" ->
  exists w',
    transform (clear VERSION File isStream given) file s
    = (Done, Pipe (inputFiles s) (pushed s ++ [file]) w')
    /\ cache w'
       = delete (name (clearOptions VERSION File given),
                 makeHash (bytesOfString k)) (cache (outside s))
    /\ during (outside s) w'
       = [CallKey file;
          CallRemoveCached (name (clearOptions VERSION File given))
            (makeHash (bytesOfString k))].
Proof.
  intros Hm Hn Hs Hk Hne. unfold clear. fold (clearOptions VERSION File given).
  cbn [transform transformer_of]. rewrite Hn, Hs, Hm.
  unfold removeFiles, removeCachedResult, newTaskProxy, bind, _getFileKey.
  cbn [opts files withFiles]. rewrite Hm. change (first [file]) with file.
  rewrite Hk. destruct (String.eqb_spec k "") as [|_]; [done|].
  assert (truthy (JStr k) = true) as -> by (by destruct k).
  cbn [negb removeCached]. eexists. split; [done|]. split; [done|].
  apply during_app. simpl. by rewrite <- app_assoc.
Qed.

(** X16.  In many-to-many mode the clearing transform removes the one
    entry of the batch when it is flushed, and of the files it held back
    it pushes the first only: the other files of the batch do not reach
    downstream. *)
Theorem clear_batch_forwards_first_only given fs w b rest k :
  manyToMany (clearOptions VERSION File given) = true ->
  inMemory isStream fs = true ->
  held fs = b :: rest ->
  key (clearOptions VERSION File given) true (JArr (held fs))
  = Resolved (JStr k) ->
  k <> "" ->
  exists w',
    flush (clear VERSION File isStream given)
      (feed (clear VERSION File isStream given) fs (Pipe [] [] w))
    = (Done, Pipe (held fs) (forwarded fs ++ [b]) w')
    /\ cache w'
       = delete (name (clearOptions VERSION File given),
                 makeHash (bytesOfString k)) (cache w)
    /\ during w w'
       = [CallKey (JArr (held fs));
          CallRemoveCached (name (clearOptions VERSION File given))
            (makeHash (bytesOfString k))].
Proof.
  intros Hm Hfs Hheld Hk Hne. unfold clear.
  fold (clearOptions VERSION File given).
  rewrite (feed_batch _ _ _ _ Hm Hfs).
  cbn [flush transformer_of]. rewrite Hm.
  unfold removeFiles, removeCachedResult, newTaskProxy, bind, _getFileKey.
  cbn [opts files withFiles inputFiles pushed outside app]. rewrite Hm, Hk.
  assert (truthy (JStr k) = true) as -> by (by destruct k).
  cbn [negb removeCached].
  assert (first (held fs) = b) as -> by (by rewrite Hheld).
  eexists. split; [done|]. split; [done|].
  apply during_app. simpl. by rewrite <- app_assoc.
Qed.

End Transforms.

Lemma batch_is_one_invocation_witness :
  feed Sample.batchCaching Sample.arrivals (Pipe [] [] Sample.idle)
  = Pipe (held Sample.arrivals) (forwarded Sample.arrivals) Sample.idle
  /\ flush Sample.batchCaching
       (feed Sample.batchCaching Sample.arrivals (Pipe [] [] Sample.idle))
     = match invocation Sample.noParse (Some Sample.shout)
               (resolveOptions Sample.version Sample.vinylFile noOverrides
                  Sample.batchOverrides)
               (held Sample.arrivals) Sample.idle with
       | (Resolved (JArr outputFiles), w') =>
           (Done, Pipe (held Sample.arrivals)
                    (forwarded Sample.arrivals ++ outputFiles) w')
       | (Rejected err, w') =>
           (Failed (PluginError "gulp-cache" err),
            Pipe (held Sample.arrivals) (forwarded Sample.arrivals) w')
       | (_, w') =>
           (NotCalled, Pipe (held Sample.arrivals) (forwarded Sample.arrivals) w')
       end.
Proof.
  apply (batch_is_one_invocation Sample.version Sample.vinylFile Sample.noStream
           Sample.noParse Sample.shout noOverrides Sample.batchOverrides
           Sample.batchCaching Sample.arrivals Sample.idle); reflexivity.
Defined.

(** The batch of the example: the file without contents overtakes the
    two outputs. *)
Example batch_order :
  pushed (flush Sample.batchCaching
            (feed Sample.batchCaching Sample.arrivals (Pipe [] [] Sample.idle))).2
  = [Sample.nothing; Sample.shouted Sample.input; Sample.shouted Sample.other].
Proof. vm_compute. reflexivity. Qed.

Lemma clear_removes_entry_witness :
  exists w',
    transform (clear Sample.version Sample.vinylFile Sample.noStream noOverrides)
      Sample.input Sample.shoutedPipe
    = (Done, Pipe (inputFiles Sample.shoutedPipe)
               (pushed Sample.shoutedPipe ++ [Sample.input]) w')
    /\ cache w'
       = delete (name (clearOptions Sample.version Sample.vinylFile noOverrides),
                 makeHash (bytesOfString Sample.sampleKeyText))
           (cache (outside Sample.shoutedPipe))
    /\ during (outside Sample.shoutedPipe) w'
       = [CallKey Sample.input;
          CallRemoveCached
            (name (clearOptions Sample.version Sample.vinylFile noOverrides))
            (makeHash (bytesOfString Sample.sampleKeyText))].
Proof.
  apply (clear_removes_entry_and_forwards Sample.version Sample.vinylFile
           Sample.noStream noOverrides Sample.input Sample.shoutedPipe
           Sample.sampleKeyText);
    try reflexivity.
  vm_compute. discriminate.
Defined.

Lemma clear_batch_witness :
  exists w',
    flush (clear Sample.version Sample.vinylFile Sample.noStream
             Sample.batchOverrides)
      (feed (clear Sample.version Sample.vinylFile Sample.noStream
               Sample.batchOverrides)
         Sample.arrivals (Pipe [] [] Sample.idle))
    = (Done, Pipe (held Sample.arrivals)
               (forwarded Sample.arrivals ++ [Sample.input]) w')
    /\ cache w'
       = delete (name (clearOptions Sample.version Sample.vinylFile
                         Sample.batchOverrides),
                 makeHash (bytesOfString
                   (defaultKeyText Sample.version
                      [bytesOfString "abc"; bytesOfString "xyz"])))
           (cache Sample.idle)
    /\ during Sample.idle w'
       = [CallKey (JArr (held Sample.arrivals));
          CallRemoveCached
            (name (clearOptions Sample.version Sample.vinylFile
                     Sample.batchOverrides))
            (makeHash (bytesOfString
               (defaultKeyText Sample.version
                  [bytesOfString "abc"; bytesOfString "xyz"])))].
Proof.
  apply (clear_batch_forwards_first_only Sample.version Sample.vinylFile
           Sample.noStream Sample.batchOverrides Sample.arrivals Sample.idle
           Sample.input [Sample.other]
           (defaultKeyText Sample.version
              [bytesOfString "abc"; bytesOfString "xyz"]));
    try reflexivity.
  vm_compute. discriminate.
Defined.

(** ** An entry found again *)

Section Reuse.

Variable File : jsval -> props.
Variable JSON_parse : string -> option jsval.

(** A key that is a non-empty string and has an entry leads to the
    restored contents of the entry. *)
Lemma checkForCachedValue_found p w s c :
  key (opts p) (manyToMany (opts p)) (keyArgument p w) = Resolved (JStr s) ->
  s <> "" ->
  cache w !! (name (opts p), makeHash (bytesOfString s)) = Some c ->
  _checkForCachedValue JSON_parse p w
  = match restore (opts p) with
    | Some r =>
        match r (manyToMany (opts p)) (parseContents JSON_parse c) with
        | Returned v =>
            (Resolved (Cached.Make (JStr (makeHash (bytesOfString s))) v),
             logged [CallKey (keyArgument p w);
                     CallGetCached (name (opts p)) (makeHash (bytesOfString s))]
               w)
        | Threw e =>
            (Rejected e,
             logged [CallKey (keyArgument p w);
                     CallGetCached (name (opts p)) (makeHash (bytesOfString s))]
               w)
        end
    | None =>
        (Resolved (Cached.Make (JStr (makeHash (bytesOfString s)))
                     (parseContents JSON_parse c)),
         logged [CallKey (keyArgument p w);
                 CallGetCached (name (opts p)) (makeHash (bytesOfString s))] w)
    end.
Proof.
  intros Hk Hs Hc. unfold _checkForCachedValue, bind.
  rewrite (getFileKey_string _ _ _ Hk).
  destruct (String.eqb_spec s "") as [|_]; [done|].
  rewrite makeHash_truthy. cbn [negb]. unfold getCached.
  change (cache (logged [CallKey (keyArgument p w)] w)) with (cache w).
  rewrite Hc.
  assert (forall c1 c2, logged [c2] (logged [c1] w) = logged [c1; c2] w) as Hlog.
  { intros. unfold logged; simpl. by rewrite <- app_assoc. }
  rewrite Hlog.
  destruct (restore (opts p)) as [r|]; [|done]. by destruct (r _ _).
Qed.

(** Whatever the contents are, restoring them leaves the other members
    of the object alone. *)
Lemma restoreContents_other ps :
  NoDup (keys ps) ->
  exists ms,
    restoreContents (JObj ps) = JObj ms
    /\ NoDup (keys ms)
    /\ forall k, k <> "contents" -> getProp (JObj ms) k = getProp (JObj ps) k.
Proof.
  intros Hnd. unfold restoreContents.
  destruct (truthy _); [|by exists ps].
  destruct (getProp (getProp (JObj ps) "contents") "data"),
    (getProp (JObj ps) "contents");
    try (by exists ps);
    (eexists; split; [done|]; split; [by apply NoDup_setProp|];
     intros k Hk; unfold getProp; simpl; rewrite lookup_setProp;
     by destruct (String.eqb_spec k "contents")).
Qed.

(** X17.  What a many-to-many invocation stores with the default
    extraction, a later many-to-many invocation with the default restore
    that computes the same key under the same name finds again: it
    resolves with one restored file for each stored output, in order,
    after the two calls of the lookup.  Its own task plays no part: it is
    not written to, and nothing is stored. *)
Theorem stored_batch_is_found_again p1 p2 w outs fs s :
  manyToMany (opts p1) = true ->
  value (opts p1) = ValueFn defaultValue ->
  manyToMany (opts p2) = true ->
  restore (opts p2) = Some (defaultRestore File) ->
  name (opts p2) = name (opts p1) ->
  key (opts p2) true (JArr fs) = Resolved (JStr s) ->
  s <> "" ->
  processFiles JSON_parse p2
    (withFiles fs
       (_storeCachedResult p1 (JStr (makeHash (bytesOfString s))) outs w).2)
  = (Resolved (JArr (map (fun out => restored File (toJSON (fileToObj out)))
                         outs)),
     logged [CallKey (JArr fs);
             CallGetCached (name (opts p2)) (makeHash (bytesOfString s))]
       (withFiles fs
          (_storeCachedResult p1 (JStr (makeHash (bytesOfString s))) outs w).2)).
Proof.
  intros Hm1 Hv1 Hm2 Hr2 Hn Hk Hs.
  set (w1 := withFiles fs _).
  assert (cache w1 !! (name (opts p2), makeHash (bytesOfString s))
          = Some (JsonText (toJSON (JArr (map fileToObj outs))))) as Hc.
  { unfold w1, _storeCachedResult, _getValueFromResult, bind.
    rewrite makeHash_truthy, Hv1, Hm1.
    cbn [negb defaultValue storedText addCached snd cache withFiles logged
         withCache].
    rewrite Hn. apply lookup_insert_eq. }
  assert (keyArgument p2 w1 = JArr fs) as Harg
    by (unfold keyArgument; by rewrite Hm2).
  assert (key (opts p2) (manyToMany (opts p2)) (keyArgument p2 w1)
          = Resolved (JStr s)) as Hk2 by (by rewrite Harg, Hm2).
  unfold processFiles. unfold bind at 1.
  rewrite (checkForCachedValue_found p2 w1 s _ Hk2 Hs Hc), Hr2, Hm2, Harg.
  cbn [parseContents defaultRestore]. rewrite toJSON_batch.
  rewrite restore_batch.
  - unfold bind, readFiles, ret. cbn [Cached.value truthy].
    do 3 f_equal. rewrite map_map. apply map_ext. intros out.
    unfold restored. by rewrite fileToObj_members, toJSON_obj.
  - apply Forall_forall. intros d (o & -> & _)%list_elem_of_fmap. by eexists.
Qed.

(** X18.  In one-to-one mode an entry stored with the default extraction
    is accepted whenever the same input comes again: for an input at the
    path the storing proxy was built for, a later invocation with the
    default restore that computes the same key under the same name
    resolves with the input file itself, extended in place, after the two
    calls of the lookup, whether or not the task had moved the file.
    The task is not run and the store is left as it was.  The constructor
    of files must not set an [originalPath] member of its own. *)
Theorem stored_file_is_accepted_again p1 p2 w outs target rest pth s :
  manyToMany (opts p1) = false ->
  value (opts p1) = ValueFn defaultValue ->
  first (originalPaths p1) = JStr pth ->
  manyToMany (opts p2) = false ->
  restore (opts p2) = Some (defaultRestore File) ->
  name (opts p2) = name (opts p1) ->
  getProp (JObj target) "path" = JStr pth ->
  key (opts p2) false (JObj target) = Resolved (JStr s) ->
  s <> "" ->
  (forall o, lookup "originalPath" (File o) = None) ->
  exists file w',
    processFiles JSON_parse p2
      (withFiles (JObj target :: rest)
         (_storeCachedResult p1 (JStr (makeHash (bytesOfString s))) outs w).2)
    = (Resolved (JArr [JObj file]), w')
    /\ files w' = JObj file :: rest
    /\ cache w'
       = cache (_storeCachedResult p1 (JStr (makeHash (bytesOfString s)))
                  outs w).2
    /\ during
         (withFiles (JObj target :: rest)
            (_storeCachedResult p1 (JStr (makeHash (bytesOfString s))) outs w).2)
         w'
       = [CallKey (JObj target);
          CallGetCached (name (opts p2)) (makeHash (bytesOfString s))].
Proof.
  intros Hm1 Hv1 Ho Hm2 Hr2 Hn Hpath Hk Hs HFile.
  set (w0 := (_storeCachedResult p1 _ outs w).2).
  set (w1 := withFiles _ w0).
  set (stamped := stamp (JStr pth)
                    (pickedOf (ownProps (first outs)) retainedFields)).
  assert (NoDup (keys stamped)) as Hnd.
  { apply NoDup_setProp. destruct (negb _); [apply NoDup_setProp|];
      apply NoDup_picked, NoDup_retained. }
  assert (cache w1 !! (name (opts p2), makeHash (bytesOfString s))
          = Some (JsonText (JObj (jsonMembers stamped)))) as Hc.
  { unfold w1, w0, _storeCachedResult, _getValueFromResult, bind.
    rewrite makeHash_truthy, Hv1, Hm1. cbn [negb defaultValue].
    rewrite fileToObj_members. cbn [storedText]. rewrite Ho, toJSON_obj.
    cbn [addCached snd cache withFiles logged withCache].
    rewrite Hn. apply lookup_insert_eq. }
  assert (keyArgument p2 w1 = JObj target) as Harg
    by (unfold keyArgument; by rewrite Hm2).
  assert (key (opts p2) (manyToMany (opts p2)) (keyArgument p2 w1)
          = Resolved (JStr s)) as Hk2 by (by rewrite Harg, Hm2).
  pose proof (checkForCachedValue_found p2 w1 s _ Hk2 Hs Hc) as Hfound.
  rewrite Hr2, Hm2, Harg in Hfound.
  cbn [parseContents defaultRestore restoreFileFromObj] in Hfound.
  destruct (restoreContents_other (jsonMembers stamped))
    as (ms & Hms & Hndms & Hother); [by apply NoDup_jsonMembers|].
  rewrite Hms in Hfound. fold (overlay File (JObj ms)) in Hfound.
  assert (getProp (overlay File (JObj ms)) "originalPath" = JStr pth) as Hori.
  { rewrite (overlay_member File ms _ Hndms), HFile. simpl.
    rewrite Hother by done. rewrite getProp_jsonMembers by done.
    unfold stamped, stamp, getProp. cbn [ownProps].
    by rewrite lookup_setProp. }
  rewrite (processFiles_accepts JSON_parse p2 w1 _ _ Hm2 Hfound); [|done|].
  - unfold extendOntoFile. cbn [Cached.value files logged w1 withFiles first].
    change (first (JObj target :: rest)) with (JObj target).
    eexists _, _. split; [done|]. split; [done|]. split; [done|].
    apply during_app. done.
  - unfold stale. cbn [Cached.value]. rewrite Hori.
    change (first (files w1)) with (JObj target). rewrite Hpath. simpl.
    rewrite String.eqb_refl. apply andb_false_r.
Qed.

End Reuse.

Lemma stored_batch_witness :
  processFiles Sample.noParse Sample.idleBatchProxy
    (withFiles [Sample.input; Sample.other]
       (_storeCachedResult Sample.shoutBatchProxy
          (JStr (makeHash (bytesOfString Sample.batchKeyText)))
          [Sample.shouted Sample.input; Sample.shouted Sample.other]
          (Sample.before [Sample.input; Sample.other])).2)
  = (Resolved (JArr (map (fun out => restored Sample.vinylFile
                                       (toJSON (fileToObj out)))
                         [Sample.shouted Sample.input;
                          Sample.shouted Sample.other])),
     logged [CallKey (JArr [Sample.input; Sample.other]);
             CallGetCached (name (opts Sample.idleBatchProxy))
               (makeHash (bytesOfString Sample.batchKeyText))]
       (withFiles [Sample.input; Sample.other]
          (_storeCachedResult Sample.shoutBatchProxy
             (JStr (makeHash (bytesOfString Sample.batchKeyText)))
             [Sample.shouted Sample.input; Sample.shouted Sample.other]
             (Sample.before [Sample.input; Sample.other])).2)).
Proof.
  apply (stored_batch_is_found_again Sample.vinylFile Sample.noParse
           Sample.shoutBatchProxy Sample.idleBatchProxy
           (Sample.before [Sample.input; Sample.other])
           [Sample.shouted Sample.input; Sample.shouted Sample.other]
           [Sample.input; Sample.other] Sample.batchKeyText);
    try reflexivity.
  vm_compute. discriminate.
Defined.

Lemma stored_file_witness :
  exists file w',
    processFiles Sample.noParse Sample.idleProxy
      (withFiles (JObj Sample.inputMembers :: [])
         (_storeCachedResult Sample.inputProxy
            (JStr (makeHash (bytesOfString Sample.sampleKeyText)))
            [Sample.shouted Sample.input] (Sample.before [Sample.input])).2)
    = (Resolved (JArr [JObj file]), w')
    /\ files w' = JObj file :: []
    /\ cache w'
       = cache (_storeCachedResult Sample.inputProxy
                  (JStr (makeHash (bytesOfString Sample.sampleKeyText)))
                  [Sample.shouted Sample.input] (Sample.before [Sample.input])).2
    /\ during
         (withFiles (JObj Sample.inputMembers :: [])
            (_storeCachedResult Sample.inputProxy
               (JStr (makeHash (bytesOfString Sample.sampleKeyText)))
               [Sample.shouted Sample.input] (Sample.before [Sample.input])).2)
         w'
       = [CallKey (JObj Sample.inputMembers);
          CallGetCached (name (opts Sample.idleProxy))
            (makeHash (bytesOfString Sample.sampleKeyText))].
Proof.
  apply (stored_file_is_accepted_again Sample.vinylFile Sample.noParse
           Sample.inputProxy Sample.idleProxy (Sample.before [Sample.input])
           [Sample.shouted Sample.input] Sample.inputMembers []
           "/work/a.txt" Sample.sampleKeyText);
    try reflexivity.
  vm_compute. discriminate.
Defined.

(** ** A value named by a property *)

Section Named.

(** X19.  When the value option names a property other than [path], the
    object that is stored in one-to-one mode has no path to compare with
    the path of the input: every entry is stamped as if the task had
    moved the file, whatever the task did, and records the path of the
    input as [originalPath]. *)
Theorem named_value_is_always_flagged p w outs property h :
  manyToMany (opts p) = false ->
  value (opts p) = ValueName property ->
  property <> "path" ->
  strictEq (first outs) JUndefined = false ->
  strictEq JUndefined (first (originalPaths p)) = false ->
  h <> "" ->
  exists doc w',
    _storeCachedResult p (JStr h) outs w = (Resolved tt, w')
    /\ cache w' !! (name (opts p), h) = Some (JsonText doc)
    /\ getProp doc "filePathChangedInsideTask" = JBool true
    /\ getProp doc "originalPath" = toJSON (first (originalPaths p)).
Proof.
  intros Hm Hv Hp Hout Hori Hh.
  unfold _storeCachedResult, _getValueFromResult, bind.
  assert (truthy (JStr h) = true) as -> by (by destruct h).
  rewrite Hv, Hm, Hout. cbn [negb ret storedText]. rewrite toJSON_obj.
  unfold addCached. eexists _, _. split; [done|].
  cbn [cache logged withCache]. rewrite lookup_insert_eq. split; [done|].
  assert (getProp (JObj [(property, getProp (first outs) property)]) "path"
          = JUndefined) as Hpath.
  { unfold getProp. cbn [ownProps lookup].
    by destruct (String.eqb_spec "path" property) as [<-|_]. }
  unfold stamp. rewrite Hpath, Hori. cbn [negb].
  assert (NoDup (keys [(property, getProp (first outs) property)])) as Hnd
    by (apply NoDup_singleton).
  rewrite !getProp_jsonMembers by (by do 2 apply NoDup_setProp).
  unfold getProp. cbn [ownProps]. rewrite !lookup_setProp. by simpl.
Qed.

End Named.

Lemma named_value_witness :
  exists doc w',
    _storeCachedResult Sample.contentsOnlyProxy
      (JStr (makeHash (bytesOfString Sample.sampleKeyText)))
      [Sample.shouted Sample.input] (Sample.before [Sample.input])
    = (Resolved tt, w')
    /\ cache w' !! (name (opts Sample.contentsOnlyProxy),
                    makeHash (bytesOfString Sample.sampleKeyText))
       = Some (JsonText doc)
    /\ getProp doc "filePathChangedInsideTask" = JBool true
    /\ getProp doc "originalPath"
       = toJSON (first (originalPaths Sample.contentsOnlyProxy)).
Proof.
  apply (named_value_is_always_flagged Sample.contentsOnlyProxy
           (Sample.before [Sample.input]) [Sample.shouted Sample.input]
           "contents" (makeHash (bytesOfString Sample.sampleKeyText)));
    try reflexivity.
  - discriminate.
  - vm_compute. discriminate.
Defined.
